(** * cryptoR: symbol identifiers and the price-history fetcher

    A shallow embedding of [data_collect.py]: the [CryptoSymbol] value
    class with its parser and formatter, and [symbol_price_hist] with
    its nested helper [_single_symbol_price_hist].

    Python exceptions are values of [Exn]; a computation that may raise
    returns [Exn + A].  The HTTP endpoint, the text Python prints for a
    value and the two pandas constructors that read upstream data are
    collaborators outside the module and are taken as an environment
    [Env], as is the order in which pandas lists the labels of a joined
    index; the reshaping primitives the module calls on frames it
    already holds ([set_index], [rename], [merge]) are written out. *)

From Stdlib Require Import List String Ascii ZArith Bool Lia PeanoNat.
From Stdlib Require Import DecimalString.
Import ListNotations.
Local Open Scope string_scope.
Local Open Scope list_scope.

Set Implicit Arguments.
Set Warnings "-register-all".

(** String concatenation; [++] is kept for lists. *)
Infix "+++" := String.append (right associativity, at level 60).

(** ** Exceptions *)

Inductive Exn : Type :=
| ValueError (msg : string)
| TypeError (msg : string)
| KeyError (key : string)
| IndexError (msg : string)
| AttributeError (msg : string)
| RequestException (reason : string)
| HTTPError (status : Z)
| JSONDecodeError
| MergeError (msg : string).

(** ** Strings: [str.split] on a one-character separator *)

Module Str.

Definition sep : ascii := "/"%char.

(** [s.split("/")]: the pieces between the separators, one more
    piece than there are separators; the empty string gives [[""]]. *)
Fixpoint split (c : ascii) (s : string) : list string :=
  match s with
  | EmptyString => [EmptyString]
  | String a rest =>
      if Ascii.eqb a c then EmptyString :: split c rest
      else match split c rest with
           | [] => [String a EmptyString]
           | piece :: pieces => String a piece :: pieces
           end
  end.

Fixpoint count (c : ascii) (s : string) : nat :=
  match s with
  | EmptyString => 0
  | String a rest => (if Ascii.eqb a c then 1 else 0) + count c rest
  end.

(** [c not in s] *)
Definition free (c : ascii) (s : string) : Prop := count c s = 0.

(** [sep.join(pieces)] *)
Fixpoint join (c : ascii) (pieces : list string) : string :=
  match pieces with
  | [] => EmptyString
  | [p] => p
  | p :: rest => p +++ String c (join c rest)
  end.

(** [needle in s] *)
Definition contains (s needle : string) : Prop :=
  exists before after, s = before +++ needle +++ after.

End Str.

(** ** CryptoSymbol *)

Record CryptoSymbol : Type := mkCryptoSymbol {
  symbol : string;
  pair : string
}.

(** Tuple unpacking [symbol, pair = parts]. *)
Definition unpack2 (parts : list string) : Exn + (string * string) :=
  match parts with
  | [a; b] => inr (a, b)
  | [] => inl (ValueError "not enough values to unpack (expected 2, got 0)")
  | [_] => inl (ValueError "not enough values to unpack (expected 2, got 1)")
  | _ => inl (ValueError "too many values to unpack (expected 2)")
  end.

(** [e("...")] where [e] is a caught exception instance: instances are
    not callable, so evaluating the call raises [TypeError] before the
    [raise] statement gets a value to raise. *)
Definition call_exception_instance (e : Exn) (arg : string) : Exn + Exn :=
  match e with
  | ValueError _ => inl (TypeError "'ValueError' object is not callable")
  | _ => inl (TypeError "exception object is not callable")
  end.

(** [CryptoSymbol.from_string]:
<<
    try:
        symbol, pair = symbol_pair_str.split("/")
        return cls(symbol, pair)
    except ValueError as e:
        raise e("String format must be 'SYMBOL/PAIR', e.g. 'BTC/USD'")
>> *)
Definition from_string (symbol_pair_str : string) : Exn + CryptoSymbol :=
  match unpack2 (Str.split Str.sep symbol_pair_str) with
  | inr (symbol, pair) => inr (mkCryptoSymbol symbol pair)
  | inl (ValueError _ as e) =>
      match call_exception_instance e
              "String format must be 'SYMBOL/PAIR', e.g. 'BTC/USD'" with
      | inl raised => inl raised
      | inr e' => inl e'
      end
  | inl other => inl other
  end.

(** [CryptoSymbol.to_string]: [f"{self.symbol}/{self.pair}"] *)
Definition to_string (self : CryptoSymbol) : string :=
  symbol self +++ "/" +++ pair self.

(** ** Python values decoded from a JSON body *)

Inductive pyobj : Type :=
| PyNone
| PyBool (b : bool)
| PyInt (z : Z)
| PyFloat (shown : string)   (* a float, carried by the text Python prints for it *)
| PyStr (s : string)
| PyList (items : list pyobj)
| PyDict (items : list (string * pyobj)).   (* items in insertion order *)

Definition type_name (o : pyobj) : string :=
  match o with
  | PyNone => "NoneType"
  | PyBool _ => "bool"
  | PyInt _ => "int"
  | PyFloat _ => "float"
  | PyStr _ => "str"
  | PyList _ => "list"
  | PyDict _ => "dict"
  end.

(** ** Insertion-ordered dictionaries with string keys *)

Module Dict.

Definition t (V : Type) : Type := list (string * V).

Fixpoint get {V} (k : string) (d : t V) : option V :=
  match d with
  | [] => None
  | (k', v) :: rest => if String.eqb k' k then Some v else get k rest
  end.

(** [d[k] = v]: a key already present keeps its position. *)
Fixpoint set {V} (k : string) (v : V) (d : t V) : t V :=
  match d with
  | [] => [(k, v)]
  | (k', v') :: rest =>
      if String.eqb k' k then (k, v) :: rest else (k', v') :: set k v rest
  end.

Definition keys {V} (d : t V) : list string := map fst d.

(** [d[k]] *)
Definition getitem {V} (k : string) (d : t V) : Exn + V :=
  match get k d with
  | Some v => inr v
  | None => inl (KeyError k)
  end.

End Dict.

(** [o.get(key)] *)
Definition py_get (o : pyobj) (key : string) : Exn + pyobj :=
  match o with
  | PyDict items =>
      inr (match Dict.get key items with Some v => v | None => PyNone end)
  | other =>
      inl (AttributeError
             ("'" +++ type_name other +++ "' object has no attribute 'get'"))
  end.

(** [o[key]] for a string [key] *)
Definition py_getitem (o : pyobj) (key : string) : Exn + pyobj :=
  match o with
  | PyDict items =>
      match Dict.get key items with
      | Some v => inr v
      | None => inl (KeyError key)
      end
  | PyList _ => inl (TypeError "list indices must be integers or slices, not str")
  | PyStr _ => inl (TypeError "string indices must be integers, not 'str'")
  | other =>
      inl (TypeError ("'" +++ type_name other +++ "' object is not subscriptable"))
  end.

(** [l[0]] *)
Definition list_getitem0 {A} (l : list A) : Exn + A :=
  match l with
  | [] => inl (IndexError "list index out of range")
  | x :: _ => inr x
  end.

(** ** Data frames

    A frame is its column labels and its rows; a row is its index label
    and one cell per column.  Frames built from JSON records have
    distinct string column labels.  [NaN] is the missing value of a
    column, whatever its type ([NaN], [NaT], [None]); [Num] is an
    integer and [Real] a float, carried by the text Python prints for
    it. *)

Inductive cell : Type :=
| NaN
| Timestamp (epoch_seconds : Z)
| Num (z : Z)
| Real (shown : string)
| Text (s : string)
| Flag (b : bool)
| Object (shown : string).

Definition cell_eq_dec (a b : cell) : {a = b} + {a <> b}.
Proof.
  decide equality;
    first [apply Z.eq_dec | apply string_dec | apply bool_dec].
Defined.

Definition row : Type := (cell * list cell)%type.

Record DataFrame : Type := mkDataFrame {
  index_name : option string;
  columns : list string;
  rows : list row
}.

Definition index_labels (df : DataFrame) : list cell := map fst (rows df).

Module Pandas.

Fixpoint position (name : string) (cols : list string) : option nat :=
  match cols with
  | [] => None
  | c :: rest =>
      if String.eqb c name then Some 0 else option_map S (position name rest)
  end.

Fixpoint remove_nth {A} (i : nat) (l : list A) : list A :=
  match l, i with
  | [], _ => []
  | _ :: rest, 0 => rest
  | x :: rest, S j => x :: remove_nth j rest
  end.

Fixpoint replace_nth {A} (i : nat) (v : A) (l : list A) : list A :=
  match l, i with
  | [], _ => []
  | _ :: rest, 0 => v :: rest
  | x :: rest, S j => x :: replace_nth j v rest
  end.

(** [df[name]]: the values of a column *)
Definition getitem (name : string) (df : DataFrame) : Exn + list cell :=
  match position name (columns df) with
  | None => inl (KeyError name)
  | Some i => inr (map (fun r : row => nth i (snd r) NaN) (rows df))
  end.

Fixpoint zip_rows (i : nat) (rs : list row) (values : list cell) : list row :=
  match rs, values with
  | r :: rs', v :: values' =>
      (fst r, replace_nth i v (snd r)) :: zip_rows i rs' values'
  | _, _ => []
  end.

(** [df[name] = values] for a column that exists and a list of values *)
Definition setitem (name : string) (values : list cell) (df : DataFrame)
  : Exn + DataFrame :=
  if negb (Nat.eqb (List.length values) (List.length (rows df))) then
    inl (ValueError "Length of values does not match length of index")
  else
    match position name (columns df) with
    | None =>
        inr (mkDataFrame (index_name df) (columns df ++ [name])
               (map (fun rv : row * cell => (fst (fst rv), snd (fst rv) ++ [snd rv]))
                    (combine (rows df) values)))
    | Some i =>
        inr (mkDataFrame (index_name df) (columns df)
               (zip_rows i (rows df) values))
    end.

(** [df.set_index(keys, inplace=True)]: the column becomes the index
    and is dropped from the columns.  For a name that is no column
    pandas raises [KeyError(f"None of {missing} are in the columns")]
    with [missing] the list of the missing names; [show] is the text
    Python prints for that list. *)
Definition set_index (show : pyobj -> string) (keys : string) (df : DataFrame)
  : Exn + DataFrame :=
  match position keys (columns df) with
  | None =>
      inl (KeyError ("None of " +++ show (PyList [PyStr keys])
                     +++ " are in the columns"))
  | Some i =>
      inr (mkDataFrame (Some keys) (remove_nth i (columns df))
             (map (fun r : row => (nth i (snd r) NaN, remove_nth i (snd r)))
                  (rows df)))
  end.

(** [df.rename(columns={col: f(col) for col in df.columns}, inplace=True)] *)
Definition rename (f : string -> string) (df : DataFrame) : DataFrame :=
  mkDataFrame (index_name df) (map f (columns df)) (rows df).

Definition mem (name : string) (names : list string) : bool :=
  existsb (String.eqb name) names.

(** [Index.duplicated()]: marks every label seen earlier in the list *)
Fixpoint duplicated_from (seen names : list string) : list bool :=
  match names with
  | [] => []
  | n :: rest => mem n seen :: duplicated_from (n :: seen) rest
  end.

Definition duplicated (names : list string) : list bool :=
  duplicated_from [] names.

(** Labels that became duplicates only through the suffix. *)
Definition suffix_duplicates (before after : list string) : bool :=
  existsb (fun p : bool * bool => andb (fst p) (negb (snd p)))
          (combine (duplicated after) (duplicated before)).

(** *** Integers that become floats

    A column of [int64] or [uint64] values that receives a null in a
    merge is stored as [float64] from then on: each integer becomes the
    nearest float, ties to even. *)

(** [str(a)] for an integer *)
Definition decimal (a : Z) : string := NilZero.string_of_int (Z.to_int a).

(** The float64 nearest to a non-negative integer, as an integer. *)
Definition round53 (a : Z) : Z :=
  let bits := (Z.log2 a + 1)%Z in
  if (bits <=? 53)%Z then a
  else
    let shift := (bits - 53)%Z in
    let q := Z.shiftr a shift in
    let rest := (a - Z.shiftl q shift)%Z in
    let half := Z.shiftl 1 (shift - 1) in
    let q' := if orb (half <? rest)%Z (andb (rest =? half)%Z (Z.odd q))
              then (q + 1)%Z else q in
    Z.shiftl q' shift.

Fixpoint strip_zeros_rev (digits : list ascii) : list ascii :=
  match digits with
  | "0"%char :: rest => strip_zeros_rev rest
  | other => other
  end.

Definition strip_zeros (s : string) : string :=
  string_of_list_ascii (rev (strip_zeros_rev (rev (list_ascii_of_string s)))).

(** The shortest decimal that reads back as the float [v >= 1e16]:
    the nearer of the two decimals with [sig] significant digits around
    [v] if one of them does, else one with more digits. *)
Fixpoint shortest (fuel : nat) (sig : Z) (v : Z) : Z :=
  match fuel with
  | O => v
  | S fuel' =>
      let width := Z.of_nat (String.length (decimal v)) in
      let scale := (10 ^ (width - sig))%Z in
      let below := (v / scale * scale)%Z in
      let above := (below + scale)%Z in
      let ok_below := (round53 below =? v)%Z in
      let ok_above := (round53 above =? v)%Z in
      if andb ok_below ok_above then
        if (v - below <=? above - v)%Z then below else above
      else if ok_below then below
      else if ok_above then above
      else shortest fuel' (sig + 1)%Z v
  end.

(** [repr(v)] for a float with a non-negative integer value: the digits
    and [.0] below [1e16], the shortest digits and an exponent from
    there on. *)
Definition float_text_of (v : Z) : string :=
  if (v <? 10 ^ 16)%Z then decimal v +++ ".0"
  else
    let d := shortest 17 1 v in
    let text := decimal d in
    let exponent := decimal (Z.of_nat (String.length text) - 1) in
    match strip_zeros text with
    | String first EmptyString => String first ("e+" +++ exponent)
    | String first more => String first ("." +++ more +++ "e+" +++ exponent)
    | EmptyString => "0.0"
    end.

(** [repr(float(z))] for an integer of an [int64] or [uint64] column *)
Definition float_text (z : Z) : string :=
  if (z <? 0)%Z then "-" +++ float_text_of (round53 (- z))
  else float_text_of (round53 z).

Definition as_float (c : cell) : cell :=
  match c with
  | Num z => Real (float_text z)
  | other => other
  end.

Definition int64_cell (c : cell) : bool :=
  match c with
  | Num z => andb (- 2 ^ 63 <=? z)%Z (z <? 2 ^ 63)%Z
  | _ => false
  end.

Definition uint64_cell (c : cell) : bool :=
  match c with
  | Num z => andb (0 <=? z)%Z (z <? 2 ^ 64)%Z
  | _ => false
  end.

(** The cells of a column pandas stores as [int64] or [uint64] *)
Definition integer_column (cells : list cell) : bool :=
  orb (forallb int64_cell cells) (forallb uint64_cell cells).

(** Which columns are integer columns, one flag per column label. *)
Definition integer_columns (df : DataFrame) : list bool :=
  map (fun i => integer_column (map (fun r : row => nth i (snd r) NaN) (rows df)))
      (seq 0 (List.length (columns df))).

Fixpoint upcast_cells (flags : list bool) (cells : list cell) : list cell :=
  match cells, flags with
  | c :: cells', flag :: flags' =>
      (if flag then as_float c else c) :: upcast_cells flags' cells'
  | _, _ => cells
  end.

(** The frame with its integer columns stored as floats. *)
Definition upcast (df : DataFrame) : DataFrame :=
  mkDataFrame (index_name df) (columns df)
    (map (fun r : row => (fst r, upcast_cells (integer_columns df) (snd r)))
         (rows df)).

Definition has_label (k : cell) (r : row) : bool :=
  if cell_eq_dec (fst r) k then true else false.

(** The cells one side contributes to the rows of key [k]: the cells
    of each of its rows labelled [k], or one all-null row. *)
Definition side (k : cell) (df : DataFrame) : list (list cell) :=
  match filter (has_label k) (rows df) with
  | [] => [repeat NaN (List.length (columns df))]
  | found => map snd found
  end.

Definition join_key (l r : DataFrame) (k : cell) : list row :=
  flat_map (fun lc => map (fun rc => (k, lc ++ rc)) (side k r)) (side k l).

Definition is_label (k other : cell) : bool :=
  if cell_eq_dec other k then true else false.

(** The labels of the joined index in the order [wanted] lists them;
    [wanted] is pandas' arrangement of [labels], and a label it should
    leave out comes after the others. *)
Definition arrange (wanted labels : list cell) : list cell :=
  filter (fun k => existsb (is_label k) labels) (nodup cell_eq_dec wanted)
  ++ filter (fun k => negb (existsb (is_label k) wanted)) labels.

(** The labels of the outer join of two frames, each once. *)
Definition joined_labels (order : list cell -> list cell -> list cell)
    (l r : DataFrame) : list cell :=
  arrange (order (index_labels l) (index_labels r))
          (nodup cell_eq_dec (index_labels l ++ index_labels r)).

(** The name of the joined index: the sides' name when they agree. *)
Definition joined_name (l r : DataFrame) : option string :=
  match index_name l, index_name r with
  | Some a, Some b => if String.eqb a b then Some a else None
  | _, _ => None
  end.

(** Whether the side has no row for one of the joined labels. *)
Definition lacks_label (ks : list cell) (df : DataFrame) : bool :=
  existsb (fun k => negb (existsb (has_label k) (rows df))) ks.

(** The side as the join reads it: a side that receives nulls has its
    integer columns stored as floats. *)
Definition joined_side (ks : list cell) (df : DataFrame) : DataFrame :=
  if lacks_label ks df then upcast df else df.

(** [pd.merge(l, r, left_index=True, right_index=True, how='outer')]:
    one row per pair of rows with the same index label, rows that have
    no partner padded with nulls, the labels in the order [order] gives
    for the two indexes; a column label on both sides gets the suffixes
    [_x] and [_y] (the error for suffixes that collide also names the
    labels, which the message here leaves out).  Labels are matched by
    equality of cells, which is how pandas matches labels of one
    type. *)
Definition merge_outer (order : list cell -> list cell -> list cell)
    (l r : DataFrame) : Exn + DataFrame :=
  let lcols := map (fun c => if mem c (columns r) then c +++ "_x" else c)
                   (columns l) in
  let rcols := map (fun c => if mem c (columns l) then c +++ "_y" else c)
                   (columns r) in
  if orb (suffix_duplicates (columns l) lcols)
         (suffix_duplicates (columns r) rcols) then
    inl (MergeError "Passing 'suffixes' which cause duplicate columns is not allowed.")
  else
    let ks := joined_labels order l r in
    inr (mkDataFrame (joined_name l r) (lcols ++ rcols)
           (flat_map (join_key (joined_side ks l) (joined_side ks r)) ks)).

End Pandas.

(** ** The world outside the module *)

Record Request : Type := mkRequest {
  url : string;
  params : Dict.t pyobj
}.

Inductive HttpResult : Type :=
| NoResponse (reason : string)                      (* [requests.get] itself raises *)
| Response (status_code : Z) (json : option pyobj). (* [None]: the body is not JSON *)

(** The upstream is fixed: it answers a request by its content, the
    same request always with the same result.  [py_str] is the text
    Python prints for a value that is not text; [pd_DataFrame] and
    [pd_to_datetime] are the pandas constructors that read upstream
    data; [pd_join_order] is the order in which pandas lists the labels
    of the outer join of two indexes, each label once. *)
Record Env : Type := mkEnv {
  requests_get : Request -> HttpResult;
  py_str : pyobj -> string;
  pd_DataFrame : pyobj -> Exn + DataFrame;
  pd_to_datetime : list cell -> Exn + list cell;
  pd_join_order : list cell -> list cell -> list cell
}.

(** ** Computations that raise and issue HTTP requests

    The state is the list of requests issued so far. *)

Definition Log : Type := list Request.

Definition M (A : Type) : Type := Log -> (Exn + A) * Log.

Definition ret {A} (a : A) : M A := fun log => (inr a, log).

Definition raise {A} (e : Exn) : M A := fun log => (inl e, log).

Definition bind {A B} (c : M A) (k : A -> M B) : M B :=
  fun log =>
    match c log with
    | (inr a, log') => k a log'
    | (inl e, log') => (inl e, log')
    end.

Definition lift {A} (r : Exn + A) : M A :=
  match r with
  | inr a => ret a
  | inl e => raise e
  end.

Declare Scope fetch_scope.
Delimit Scope fetch_scope with fetch.
Notation "x <- c ;; k" := (bind c (fun x => k))
  (at level 61, c at next level, right associativity) : fetch_scope.
Local Open Scope fetch_scope.

(** [for x in l: s = body(x, s)] *)
Fixpoint for_each {A S} (body : A -> S -> M S) (l : list A) (s : S) : M S :=
  match l with
  | [] => ret s
  | x :: rest => s' <- body x s ;; for_each body rest s'
  end.

(** ** The fetcher *)

Inductive SymbolArg : Type :=
| One (symbol : CryptoSymbol)             (* not an [Iterable] *)
| Many (symbols : list CryptoSymbol).

Inductive Result : Type :=
| Frame (df : DataFrame)
| Mapping (data : Dict.t DataFrame).

Definition url_of_unit (unit : string) : option string :=
  Dict.get unit
    [("minute", "https://min-api.cryptocompare.com/data/v2/histominute");
     ("hour", "https://min-api.cryptocompare.com/data/v2/histohour");
     ("day", "https://min-api.cryptocompare.com/data/v2/histoday")].

(** [if exchange:] *)
Definition truthy (exchange : option string) : option string :=
  match exchange with
  | Some EmptyString => None
  | other => other
  end.

Definition request_params (sym : CryptoSymbol) (limit : Z)
    (exchange : option string) : Dict.t pyobj :=
  let params := [("fsym", PyStr (symbol sym));
                 ("tsym", PyStr (pair sym));
                 ("limit", PyInt limit)] in
  match truthy exchange with
  | Some e => Dict.set "e" (PyStr e) params
  | None => params
  end.

(** [f"{v}"] *)
Definition format_value (env : Env) (v : pyobj) : string :=
  match v with
  | PyStr s => s
  | PyNone => "None"
  | PyBool true => "True"
  | PyBool false => "False"
  | other => py_str env other
  end.

(** [v != "Success"] *)
Definition is_not_success (v : pyobj) : bool :=
  match v with
  | PyStr s => negb (String.eqb s "Success")
  | _ => true
  end.

(** [df["time"] = pd.to_datetime(df["time"], unit="s")] *)
Definition convert_time (env : Env) (df : DataFrame) : Exn + DataFrame :=
  match Pandas.getitem "time" df with
  | inl e => inl e
  | inr values =>
      match pd_to_datetime env values with
      | inl e => inl e
      | inr converted => Pandas.setitem "time" converted df
      end
  end.

Section Fetch.

Variable env : Env.
Variable limit : Z.
Variable exchange : option string.
Variable unit : string.
Variable merge : bool.
Variable index : string.

(** [requests.get(url, params=params)] *)
Definition http_get (rq : Request) : M HttpResult :=
  fun log => (inr (requests_get env rq), log ++ [rq]).

Definition _single_symbol_price_hist (symbol : CryptoSymbol) : M DataFrame :=
  match url_of_unit unit with
  | None =>
      raise (ValueError
               "Invalid unit provided. Select from 'minute', 'hour' or 'day'.")
  | Some url =>
      let params := request_params symbol limit exchange in
      response <- http_get (mkRequest url params) ;;
      match response with
      | NoResponse reason => raise (RequestException reason)
      | Response status_code body =>
          (* response.raise_for_status() *)
          if andb (400 <=? status_code)%Z (status_code <? 600)%Z then
            raise (HTTPError status_code)
          else
            (* data = response.json() *)
            match body with
            | None => raise JSONDecodeError
            | Some data =>
                status <- lift (py_get data "Response") ;;
                if is_not_success status then
                  message <- lift (py_get data "Message") ;;
                  raise (ValueError ("API Error: " +++ format_value env message))
                else
                  outer <- lift (py_getitem data "Data") ;;
                  records <- lift (py_getitem outer "Data") ;;
                  df <- lift (pd_DataFrame env records) ;;
                  lift (convert_time env df)
            end
      end
  end.

(** A statement that mutates the frame stored at [data[k]] in place. *)
Definition in_place (k : string) (f : DataFrame -> Exn + DataFrame)
    (data : Dict.t DataFrame) : M (Dict.t DataFrame) :=
  df <- lift (Dict.getitem k data) ;;
  df' <- lift (f df) ;;
  ret (Dict.set k df' data).

Definition prefixed (sym_str col : string) : string :=
  sym_str +++ "_" +++ col.

(** The body of [for sym in symbol:] *)
Definition loop_body (sym : CryptoSymbol) (data : Dict.t DataFrame)
  : M (Dict.t DataFrame) :=
  let sym_str := to_string sym in
  df <- _single_symbol_price_hist sym ;;
  let data := Dict.set sym_str df data in
  data <- in_place sym_str (convert_time env) data ;;
  data <- (if String.eqb index "" then ret data
           else in_place sym_str (Pandas.set_index (py_str env) index) data) ;;
  if merge then
    in_place sym_str (fun df => inr (Pandas.rename (prefixed sym_str) df)) data
  else ret data.

(** The body of [for sym in symbol[1:]:] *)
Definition merge_body (data : Dict.t DataFrame) (sym : CryptoSymbol)
    (df_res : DataFrame) : M DataFrame :=
  let sym_str := to_string sym in
  right <- lift (Dict.getitem sym_str data) ;;
  lift (Pandas.merge_outer (pd_join_order env) df_res right).

Definition symbol_price_hist (symbol : SymbolArg) : M Result :=
  match symbol with
  | Many symbols =>
      data <- for_each loop_body symbols [] ;;
      if merge then
        first <- lift (list_getitem0 symbols) ;;
        df_res <- lift (Dict.getitem (to_string first) data) ;;
        df_res <- for_each (merge_body data) (tl symbols) df_res ;;
        ret (Frame df_res)
      else ret (Mapping data)
  | One symbol =>
      df_res <- _single_symbol_price_hist symbol ;;
      df_res <- lift (convert_time env df_res) ;;
      df_res <- (if String.eqb index "" then ret df_res
                 else lift (Pandas.set_index (py_str env) index df_res)) ;;
      ret (Frame df_res)
  end.

End Fetch.

(** ** Notions used in the statements *)

(** The error of an unknown unit *)
Definition invalid_unit : Exn :=
  ValueError "Invalid unit provided. Select from 'minute', 'hour' or 'day'.".

(** The request one symbol's fetch sends, if the unit is known. *)
Definition request_of (limit : Z) (exchange : option string) (unit : string)
    (sym : CryptoSymbol) : option Request :=
  option_map (fun url => mkRequest url (request_params sym limit exchange))
             (url_of_unit unit).

(** The requests one symbol's fetch issues: one, or none when the unit
    is rejected. *)
Definition issued (limit : Z) (exchange : option string) (unit : string)
    (sym : CryptoSymbol) : Log :=
  match request_of limit exchange unit sym with
  | Some rq => [rq]
  | None => []
  end.

(** The per-symbol table of the loop before any prefixing: fetched,
    time converted, indexed when [index] is not empty. *)
Definition table_of (env : Env) (limit : Z) (exchange : option string)
    (unit index : string) (sym : CryptoSymbol) : Exn + DataFrame :=
  match fst (_single_symbol_price_hist env limit exchange unit sym []) with
  | inl e => inl e
  | inr df =>
      match convert_time env df with
      | inl e => inl e
      | inr df' =>
          if String.eqb index "" then inr df'
          else Pandas.set_index (py_str env) index df'
      end
  end.

(** What one pass of the loop leaves in [data] for a symbol: its table,
    with prefixed columns when merging. *)
Definition stored (merge : bool) (sym : CryptoSymbol) (df : DataFrame)
  : DataFrame :=
  if merge then Pandas.rename (prefixed (to_string sym)) df else df.

(** [data] after the loop when every pass succeeds, [tbl] giving each
    symbol's table. *)
Definition filled (merge : bool) (tbl : CryptoSymbol -> DataFrame)
    (syms : list CryptoSymbol) (data : Dict.t DataFrame) : Dict.t DataFrame :=
  fold_left (fun d s => Dict.set (to_string s) (stored merge s (tbl s)) d)
            syms data.





(** The distinct strings of a list, each at its first occurrence. *)
Fixpoint first_seen (seen l : list string) : list string :=
  match l with
  | [] => []
  | x :: rest =>
      if Pandas.mem x seen then first_seen seen rest
      else x :: first_seen (seen ++ [x]) rest
  end.

Definition first_occurrences (l : list string) : list string := first_seen [] l.

(** ** utils.py *)

(** [add_prefix_to_df]:
<<
    df = df.rename(columns={col: f"{prefix}_{col}" for col in df.columns})
    return df
>>
    [rename] without [inplace] builds a new frame; the argument is left
    as it was. *)
Definition add_prefix_to_df (df : DataFrame) (prefix : string) : DataFrame :=
  Pandas.rename (fun col => prefix +++ "_" +++ col) df.

(** [defn]: [default] if [value is None] else [value].  A Python value
    is [None] or some object. *)
Definition defn {A} (value default : option A) : option A :=
  match value with
  | None => default
  | Some _ => value
  end.

(** ** The self-test of [data_collect.py] *)

(** What the test harness can raise: an exception of the code under
    test, or its own [TestError]. *)
Inductive Raised : Type :=
| Propagated (e : Exn)
| TestError (msg : string).

(** A test function: its [__name__], the text [f"{fn}"] prints for it
    and its body. *)
Record TestFn : Type := mkTestFn {
  fn_name : string;
  fn_repr : string;
  call : M bool
}.

Definition newline : string := String (ascii_of_nat 10) EmptyString.

(** [_vprint(s, end)]: [print(s, end=end)] when [verbose]; the state is
    the text written to standard output so far. *)
Definition _vprint (verbose : bool) (s end_ : string) (stdout : string)
  : string :=
  if verbose then stdout +++ s +++ end_ else stdout.

(** [test(fn)] *)
Definition test (verbose : bool) (fn : TestFn) (log : Log) (stdout : string)
  : (Raised + unit) * Log * string :=
  let stdout := _vprint verbose ("Testing '" +++ fn_name fn +++ "' ...'") ""
                        stdout in
  match call fn log with
  | (inl e, log') => (inl (Propagated e), log', stdout)
  | (inr ret, log') =>
      if negb ret then
        (inl (TestError ("Test failed: " +++ fn_repr fn +++ ": " +++ fn_name fn)),
         log', stdout)
      else (inr tt, log', _vprint verbose "PASSED!" newline stdout)
  end.

(** [df.shape[1]] of what [symbol_price_hist] returned *)
Definition shape1 (res : Result) : Exn + Z :=
  match res with
  | Frame df => inr (Z.of_nat (List.length (columns df)))
  | Mapping _ => inl (AttributeError "'dict' object has no attribute 'shape'")
  end.

(** [_utest_symbol_price_hist(columns_per_df)] *)
Definition _utest_symbol_price_hist (env : Env) (columns_per_df : Z) : M bool :=
  (symbol <- lift (from_string "BTC/USD") ;;
   df <- symbol_price_hist env 2000 None "minute" false "time" (One symbol) ;;
   width <- lift (shape1 df) ;;
   if negb (width =? columns_per_df)%Z then ret false
   else
     s1 <- lift (from_string "BTC/USD") ;;
     s2 <- lift (from_string "ETH/BTC") ;;
     let symbols := [s1; s2] in
     df <- symbol_price_hist env 2000 None "day" true "time" (Many symbols) ;;
     width <- lift (shape1 df) ;;
     if negb (width =? columns_per_df * Z.of_nat (List.length symbols))%Z
     then ret false
     else ret true)%fetch.

(** [test(_utest_symbol_price_hist)] with [verbose = True]; [shown] is
    the text Python prints for the function object. *)
Definition main (env : Env) (shown : string) (log : Log) (stdout : string)
  : (Raised + unit) * Log * string :=
  test true (mkTestFn "_utest_symbol_price_hist" shown
               (_utest_symbol_price_hist env 8)) log stdout.

(** ** A sample environment

    An upstream with two known pairs whose records hold integers under
    the same keys, the frame pandas builds from such records and the
    conversion of integer epoch seconds.  It is the concrete input of
    the examples below. *)

Module Sample.

Definition cell_of (v : pyobj) : cell :=
  match v with
  | PyNone => NaN
  | PyBool b => Flag b
  | PyInt z => Num z
  | PyFloat shown => Real shown
  | PyStr s => Text s
  | PyList _ => Object "list"
  | PyDict _ => Object "dict"
  end.

Fixpoint add_keys (items : list (string * pyobj)) (cols : list string)
  : list string :=
  match items with
  | [] => cols
  | (k, _) :: rest =>
      add_keys rest (if Pandas.mem k cols then cols else cols ++ [k])
  end.

Fixpoint record_columns (records : list pyobj) (cols : list string)
  : list string :=
  match records with
  | PyDict items :: rest => record_columns rest (add_keys items cols)
  | _ :: rest => record_columns rest cols
  | [] => cols
  end.

Definition record_cells (cols : list string) (record : pyobj) : list cell :=
  match record with
  | PyDict items =>
      map (fun c => match Dict.get c items with
                    | Some v => cell_of v
                    | None => NaN
                    end) cols
  | _ => map (fun _ => NaN) cols
  end.

Fixpoint number_rows (i : Z) (cells : list (list cell)) : list row :=
  match cells with
  | [] => []
  | c :: rest => (Num i, c) :: number_rows (i + 1) rest
  end.

Definition records_frame (data : pyobj) : Exn + DataFrame :=
  match data with
  | PyList records =>
      let cols := record_columns records [] in
      inr (mkDataFrame None cols
             (number_rows 0 (map (record_cells cols) records)))
  | PyNone => inr (mkDataFrame None [] [])
  | _ => inl (ValueError "DataFrame constructor not properly called!")
  end.

Definition to_timestamp (c : cell) : cell :=
  match c with
  | Num z => Timestamp z
  | other => other
  end.

Definition epoch_to_datetime (values : list cell) : Exn + list cell :=
  inr (map to_timestamp values).

(** The index labels of this upstream's tables are timestamps, or row
    numbers when no index is set, in ascending order; pandas lists the
    labels of their join in ascending order. *)
Definition label_leb (a b : cell) : bool :=
  match a, b with
  | Timestamp x, Timestamp y => Z.leb x y
  | Num x, Num y => Z.leb x y
  | _, _ => true
  end.

Fixpoint insert_label (k : cell) (sorted : list cell) : list cell :=
  match sorted with
  | [] => [k]
  | h :: rest => if label_leb k h then k :: sorted else h :: insert_label k rest
  end.

Definition join_order (left right : list cell) : list cell :=
  fold_right insert_label [] (nodup cell_eq_dec (left ++ right)).

(** [repr(name)] for a name of ASCII characters: single quotes, or
    double quotes when the name has a single quote and no double one;
    the quote, the backslash and control characters escaped. *)
Definition double_quote : ascii := ascii_of_nat 34.
Definition backslash : ascii := ascii_of_nat 92.

Definition hex_digit (n : nat) : ascii :=
  nth n (list_ascii_of_string "0123456789abcdef") "0"%char.

Definition escaped (quote c : ascii) : string :=
  let n := nat_of_ascii c in
  if orb (Ascii.eqb c quote) (Ascii.eqb c backslash) then
    String backslash (String c "")
  else if Nat.eqb n 10 then String backslash "n"
  else if Nat.eqb n 13 then String backslash "r"
  else if Nat.eqb n 9 then String backslash "t"
  else if orb (Nat.ltb n 32) (Nat.eqb n 127) then
    String backslash
      (String "x" (String (hex_digit (n / 16)) (String (hex_digit (n mod 16)) "")))
  else String c "".

Definition py_repr (name : string) : string :=
  let chars := list_ascii_of_string name in
  let quote :=
    if andb (existsb (Ascii.eqb "'"%char) chars)
            (negb (existsb (Ascii.eqb double_quote) chars))
    then double_quote else "'"%char in
  String quote
    (fold_right (fun c rest => escaped quote c +++ rest) (String quote "") chars).

(** What Python prints for a list of names, [['a', 'b']]. *)
Fixpoint quoted (items : list pyobj) : option string :=
  match items with
  | [] => Some ""
  | [PyStr name] => Some (py_repr name)
  | PyStr name :: rest =>
      option_map (fun more => py_repr name +++ ", " +++ more) (quoted rest)
  | _ => None
  end.

Definition show (v : pyobj) : string :=
  match v with
  | PyList items =>
      match quoted items with
      | Some inside => "[" +++ inside +++ "]"
      | None => "<object>"
      end
  | _ => "<object>"
  end.

Definition candle (time close : Z) : pyobj :=
  PyDict [("time", PyInt time); ("close", PyInt close); ("open", PyInt (close - 1))].

Definition success (records : list pyobj) : HttpResult :=
  Response 200 (Some (PyDict [("Response", PyStr "Success");
                              ("Message", PyStr "");
                              ("Data", PyDict [("Data", PyList records)])])).

Definition upstream (rq : Request) : HttpResult :=
  match Dict.get "fsym" (params rq) with
  | Some (PyStr "BTC") => success [candle 1 10; candle 2 11]
  | Some (PyStr "ETH") => success [candle 2 5; candle 3 6]
  | Some (PyStr "DOWN") => Response 503 None
  | _ => Response 200 (Some (PyDict [("Response", PyStr "Error");
                                     ("Message", PyStr "market does not exist")]))
  end.

Definition env : Env :=
  mkEnv upstream show records_frame epoch_to_datetime join_order.

Definition empty_frame : DataFrame := mkDataFrame None [] [].

Definition btc_usd : CryptoSymbol := mkCryptoSymbol "BTC" "USD".
Definition eth_btc : CryptoSymbol := mkCryptoSymbol "ETH" "BTC".
Definition xxx_usd : CryptoSymbol := mkCryptoSymbol "XXX" "USD".

(** [symbol_price_hist(symbol, merge=merge)] with the other defaults *)
Definition fetch (symbol : SymbolArg) (merge : bool) : (Exn + Result) * Log :=
  symbol_price_hist env 2000 None "day" merge "time" symbol [].

(** The table of a symbol under the defaults *)
Definition table (sym : CryptoSymbol) : DataFrame :=
  match table_of env 2000 None "day" "time" sym with
  | inr df => df
  | inl _ => empty_frame
  end.

End Sample.

(** ** An upstream that misbehaves

    Bodies a well-behaved API never sends, by base symbol. *)

Module Faulty.

Definition upstream (rq : Request) : HttpResult :=
  match Dict.get "fsym" (params rq) with
  | Some (PyStr "OFF") => NoResponse "connection refused"
  | Some (PyStr "TEXT") => Response 200 None
  | Some (PyStr "LIST") => Response 200 (Some (PyList []))
  | Some (PyStr "NODATA") =>
      Response 200 (Some (PyDict [("Response", PyStr "Success")]))
  | Some (PyStr "HALF") =>
      Response 200 (Some (PyDict [("Response", PyStr "Success");
                                  ("Data", PyDict [("Aggregated", PyBool false)])]))
  | Some (PyStr "LIMIT") =>
      Response 429 (Some (PyDict [("Response", PyStr "Success");
                                  ("Data", PyDict [("Data", PyList [])])]))
  | _ => Sample.upstream rq
  end.

Definition env : Env :=
  mkEnv upstream Sample.show Sample.records_frame
        Sample.epoch_to_datetime Sample.join_order.

Definition named (base : string) : CryptoSymbol := mkCryptoSymbol base "USD".

End Faulty.

(** * Properties *)

(** The shapes the module's self-test checks, on the sample upstream
    (two columns per symbol once [time] is the index). *)
Example utest_single_symbol_shape :
  exists df log,
    symbol_price_hist Sample.env 2000 None "minute" false "time"
      (One Sample.btc_usd) [] = (inr (Frame df), log)
    /\ List.length (columns df) = 2.
Proof. eexists. eexists. split; reflexivity. Qed.

(** The merged sample table: each side lacks one of the three labels,
    so its integer columns come back as floats. *)
Example merged_sample_rows :
  exists df log,
    Sample.fetch (Many [Sample.btc_usd; Sample.eth_btc]) true
    = (inr (Frame df), log)
    /\ rows df
       = [(Timestamp 1, [Real "10.0"; Real "9.0"; NaN; NaN]);
          (Timestamp 2, [Real "11.0"; Real "10.0"; Real "5.0"; Real "4.0"]);
          (Timestamp 3, [NaN; NaN; Real "6.0"; Real "5.0"])].
Proof. eexists. eexists. split; reflexivity. Qed.

(** Integers as the floats they become: exact up to [2^53], rounded to
    the nearest float beyond, with an exponent from [1e16] on. *)
Example float_text_examples :
  Pandas.float_text 10 = "10.0"
  /\ Pandas.float_text (-3) = "-3.0"
  /\ Pandas.float_text (2 ^ 53 + 1) = "9007199254740992.0"
  /\ Pandas.float_text (10 ^ 17 + 1) = "1e+17"
  /\ Pandas.float_text (2 ^ 63 - 1) = "9.223372036854776e+18".
Proof. repeat split; reflexivity. Qed.

Example utest_merged_shape :
  exists df log,
    Sample.fetch (Many [Sample.btc_usd; Sample.eth_btc]) true
    = (inr (Frame df), log)
    /\ List.length (columns df) = 2 * 2
    /\ index_labels df = [Timestamp 1; Timestamp 2; Timestamp 3].
Proof. eexists. eexists. split; [reflexivity|]. split; reflexivity. Qed.

(** ** Splitting and joining *)

Module StrFacts.
Import Str.

Lemma split_not_nil (c : ascii) (s : string) : split c s <> [].
Proof.
  destruct s as [|a rest]; simpl; [discriminate|].
  destruct (Ascii.eqb a c); [discriminate|].
  destruct (split c rest); discriminate.
Qed.

Lemma split_length (c : ascii) (s : string) :
  List.length (split c s) = S (count c s).
Proof.
  induction s as [|a rest IH]; simpl; [reflexivity|].
  destruct (Ascii.eqb a c); simpl; [now rewrite IH|].
  destruct (split c rest) eqn:E; simpl in *; [discriminate|exact IH].
Qed.

Lemma split_free (c : ascii) (s : string) : free c s -> split c s = [s].
Proof.
  unfold free. induction s as [|a rest IH]; simpl; [reflexivity|].
  destruct (Ascii.eqb a c); simpl; [discriminate|].
  intros H. now rewrite (IH H).
Qed.

Lemma split_app (c : ascii) (a b : string) :
  free c a -> split c (a +++ String c b) = a :: split c b.
Proof.
  unfold free. induction a as [|x rest IH]; simpl.
  - intros _. now rewrite Ascii.eqb_refl.
  - destruct (Ascii.eqb x c); simpl; [discriminate|].
    intros H. now rewrite (IH H).
Qed.

Lemma join_split (c : ascii) (s : string) : join c (split c s) = s.
Proof.
  induction s as [|a rest IH]; simpl; [reflexivity|].
  destruct (Ascii.eqb a c) eqn:E.
  - apply Ascii.eqb_eq in E. subst a.
    pose proof (split_not_nil c rest) as Hne.
    simpl. destruct (split c rest) as [|p ps]; [contradiction|].
    simpl in *. now rewrite IH.
  - pose proof (split_not_nil c rest) as Hne.
    destruct (split c rest) as [|p ps]; [contradiction|].
    destruct ps as [|q qs]; simpl in *; now rewrite <- IH.
Qed.

Lemma split_pieces_free (c : ascii) (s : string) :
  Forall (free c) (split c s).
Proof.
  unfold free. induction s as [|a rest IH]; simpl.
  - repeat constructor.
  - destruct (Ascii.eqb a c) eqn:E.
    + constructor; [reflexivity|exact IH].
    + destruct (split c rest) as [|p ps]; simpl.
      * repeat constructor. simpl. now rewrite E.
      * inversion IH; subst. constructor; [|assumption].
        simpl. now rewrite E.
Qed.

Lemma count_app (c : ascii) (a b : string) :
  count c (a +++ b) = count c a + count c b.
Proof. induction a as [|x rest IH]; simpl; [reflexivity|]. rewrite IH. lia. Qed.

End StrFacts.

(** ** CryptoSymbol *)

Lemma from_string_split (s : string) (c : CryptoSymbol) :
  from_string s = inr c <-> Str.split Str.sep s = [symbol c; pair c].
Proof.
  unfold from_string, unpack2.
  destruct (Str.split Str.sep s) as [|a [|b [|x rest]]]; simpl;
    try (split; [discriminate|discriminate]).
  destruct c as [base quote]; simpl. split; intros H; inversion H; reflexivity.
Qed.

Lemma from_string_to_string (base quote : string) :
  Str.free Str.sep base -> Str.free Str.sep quote ->
  from_string (to_string (mkCryptoSymbol base quote)) = inr (mkCryptoSymbol base quote).
Proof.
  intros Hb Hq. apply from_string_split. unfold to_string. simpl.
  change (base +++ String "/" quote) with (base +++ String Str.sep quote).
  rewrite StrFacts.split_app by assumption.
  now rewrite StrFacts.split_free.
Qed.

(** C2. A string without exactly one ['/'] does not make [from_string]
    raise the format message: the handler calls the caught exception
    instance, and what is raised is [TypeError("'ValueError' object is
    not callable")]. *)
Theorem from_string_malformed (s : string) :
  Str.count Str.sep s <> 1 ->
  from_string s = inl (TypeError "'ValueError' object is not callable").
Proof.
  intros H. pose proof (StrFacts.split_length Str.sep s) as L.
  unfold from_string, unpack2.
  destruct (Str.split Str.sep s) as [|a [|b [|x rest]]]; simpl in *;
    try reflexivity.
  exfalso. apply H. lia.
Qed.

Lemma from_string_malformed_witness :
  from_string "BTCUSD" = inl (TypeError "'ValueError' object is not callable")
  /\ from_string "BTC/USD/EXTRA"
     = inl (TypeError "'ValueError' object is not callable").
Proof.
  split; apply from_string_malformed; simpl; lia.
Defined.

(** The successful half of the contract: with exactly one ['/'] the
    identifier holds the two sides verbatim. *)
Lemma from_string_one_separator (s : string) :
  Str.count Str.sep s = 1 ->
  exists base quote,
    s = base +++ "/" +++ quote /\ from_string s = inr (mkCryptoSymbol base quote).
Proof.
  intros H. pose proof (StrFacts.split_length Str.sep s) as L.
  pose proof (StrFacts.join_split Str.sep s) as J.
  destruct (Str.split Str.sep s) as [|a [|b [|x rest]]] eqn:E; simpl in L; try lia.
  exists a, b. split.
  - simpl in J. now rewrite <- J.
  - now apply from_string_split.
Qed.

(** C3. Round trip: for [s = base/quote] with no further ['/'] in either
    part, parsing succeeds and formatting the result gives [s] back. *)
Theorem to_string_from_string (base quote : string) :
  Str.free Str.sep base -> Str.free Str.sep quote ->
  exists c, from_string (base +++ "/" +++ quote) = inr c
            /\ to_string c = base +++ "/" +++ quote.
Proof.
  intros Hb Hq. exists (mkCryptoSymbol base quote). split; [|reflexivity].
  now apply (from_string_to_string Hb Hq).
Qed.

Lemma to_string_from_string_witness :
  exists c, from_string "BTC/USD" = inr c /\ to_string c = "BTC/USD".
Proof.
  apply (@to_string_from_string "BTC" "USD"); reflexivity.
Defined.

(** C8, as the code has it.  Whatever [from_string] returns was parsed
    from a string with exactly one ['/'], which is the formatted
    identifier, and neither field contains a ['/']; nothing requires a
    field to be non-empty. *)
Theorem from_string_fields (s : string) (c : CryptoSymbol) :
  from_string s = inr c ->
  Str.count Str.sep s = 1 /\ s = to_string c
  /\ Str.free Str.sep (symbol c) /\ Str.free Str.sep (pair c).
Proof.
  intros H. apply from_string_split in H.
  pose proof (StrFacts.split_length Str.sep s) as L.
  pose proof (StrFacts.join_split Str.sep s) as J.
  pose proof (StrFacts.split_pieces_free Str.sep s) as F.
  rewrite H in L, J, F. simpl in L, J.
  inversion F as [|? ? F1 F']; subst. inversion F' as [|? ? F2 _]; subst.
  split; [lia|]. split; [reflexivity|]. split; assumption.
Qed.

Lemma from_string_fields_witness :
  Str.count Str.sep "ETH/BTC" = 1
  /\ "ETH/BTC" = to_string (mkCryptoSymbol "ETH" "BTC")
  /\ Str.free Str.sep "ETH" /\ Str.free Str.sep "BTC".
Proof.
  apply (@from_string_fields "ETH/BTC" (mkCryptoSymbol "ETH" "BTC")). reflexivity.
Defined.

(** C8, as stated, fails: ["/"] and ["/USD"] parse to identifiers with
    an empty field. *)
Lemma from_string_empty_fields :
  from_string "/" = inr (mkCryptoSymbol "" "")
  /\ from_string "/USD" = inr (mkCryptoSymbol "" "USD")
  /\ ~ (forall s c, from_string s = inr c -> symbol c <> "" /\ pair c <> "").
Proof.
  split; [reflexivity|]. split; [reflexivity|].
  intros H. destruct (H "/" (mkCryptoSymbol "" "") eq_refl) as [Hs _].
  now apply Hs.
Qed.

(** ** Dictionaries *)

Module DictFacts.
Import Dict.

Lemma get_set_same {V} (k : string) (v : V) (d : t V) :
  get k (set k v d) = Some v.
Proof.
  induction d as [|[k' v'] rest IH]; simpl.
  - now rewrite String.eqb_refl.
  - destruct (String.eqb k' k) eqn:E; simpl; rewrite ?String.eqb_refl, ?E; auto.
Qed.

Lemma get_set_other {V} (k k' : string) (v : V) (d : t V) :
  k' <> k -> get k' (set k v d) = get k' d.
Proof.
  intros Hne. induction d as [|[k0 v0] rest IH]; simpl.
  - destruct (String.eqb k k') eqn:E; [|reflexivity].
    apply String.eqb_eq in E. congruence.
  - destruct (String.eqb k0 k) eqn:E; simpl.
    + apply String.eqb_eq in E. subst k0.
      destruct (String.eqb k k') eqn:E'; [|reflexivity].
      apply String.eqb_eq in E'. congruence.
    + now rewrite IH.
Qed.

Lemma set_set {V} (k : string) (v v' : V) (d : t V) :
  set k v' (set k v d) = set k v' d.
Proof.
  induction d as [|[k0 v0] rest IH]; simpl.
  - now rewrite String.eqb_refl.
  - destruct (String.eqb k0 k) eqn:E; simpl; rewrite ?String.eqb_refl, ?E; auto.
    now rewrite IH.
Qed.

Lemma mem_In (k : string) (l : list string) :
  Pandas.mem k l = true <-> In k l.
Proof.
  unfold Pandas.mem. rewrite existsb_exists. split.
  - intros [x [Hin E]]. apply String.eqb_eq in E. now subst.
  - intros Hin. exists k. split; [assumption|apply String.eqb_refl].
Qed.

Lemma mem_not_In (k : string) (l : list string) :
  Pandas.mem k l = false <-> ~ In k l.
Proof.
  rewrite <- mem_In. destruct (Pandas.mem k l); split; congruence.
Qed.

Lemma keys_set {V} (k : string) (v : V) (d : t V) :
  keys (set k v d) = if Pandas.mem k (keys d) then keys d else keys d ++ [k].
Proof.
  unfold keys, Pandas.mem. induction d as [|[k0 v0] rest IH]; simpl; [reflexivity|].
  rewrite (String.eqb_sym k k0).
  destruct (String.eqb k0 k) eqn:E; simpl.
  - apply String.eqb_eq in E. now subst.
  - rewrite IH. now destruct (existsb (String.eqb k) (map fst rest)).
Qed.

Lemma set_fresh {V} (k : string) (v : V) (d : t V) :
  ~ In k (keys d) -> set k v d = d ++ [(k, v)].
Proof.
  unfold keys. induction d as [|[k0 v0] rest IH]; simpl; [reflexivity|].
  intros Hn. destruct (String.eqb k0 k) eqn:E.
  - apply String.eqb_eq in E. exfalso. apply Hn. now left.
  - rewrite IH; [reflexivity|]. intros H. apply Hn. now right.
Qed.

End DictFacts.

(** ** One symbol *)

Section OneSymbol.

Variable env : Env.
Variable limit : Z.
Variable exchange : option string.
Variable unit : string.
Variable index : string.

Let single := _single_symbol_price_hist env limit exchange unit.
Let sent := issued limit exchange unit.
Let table := table_of env limit exchange unit index.

Lemma bind_lift {A B} (r : Exn + A) (k : A -> M B) (log : Log) :
  bind (lift r) k log = match r with inr a => k a log | inl e => (inl e, log) end.
Proof. now destruct r. Qed.

Lemma bind_http {B} (rq : Request) (k : HttpResult -> M B) (log : Log) :
  bind (http_get env rq) k log = k (requests_get env rq) (log ++ [rq]).
Proof. reflexivity. Qed.

(** The outcome of one fetch does not depend on the requests made
    before it, and the fetch appends the requests it issues. *)
Lemma single_run (sym : CryptoSymbol) (log : Log) :
  single sym log = (fst (single sym []), log ++ sent sym).
Proof.
  unfold single, sent, _single_symbol_price_hist, issued, request_of.
  destruct (url_of_unit unit) as [u|]; simpl.
  - rewrite !bind_http.
    destruct (requests_get env _) as [reason|status body]; [reflexivity|].
    destruct (andb _ _); [reflexivity|].
    destruct body as [data|]; [|reflexivity].
    rewrite !bind_lift.
    destruct (py_get data "Response") as [e|st]; [reflexivity|].
    destruct (is_not_success st).
    + rewrite !bind_lift. destruct (py_get data "Message"); reflexivity.
    + rewrite !bind_lift.
      destruct (py_getitem data "Data") as [e|outer]; [reflexivity|].
      rewrite !bind_lift.
      destruct (py_getitem outer "Data") as [e|records]; [reflexivity|].
      rewrite !bind_lift.
      destruct (pd_DataFrame env records) as [e|df]; [reflexivity|].
      unfold lift. destruct (convert_time env df); reflexivity.
  - unfold raise. now rewrite app_nil_r.
Qed.

Lemma fetch_one_run (merge : bool) (sym : CryptoSymbol) (log : Log) :
  symbol_price_hist env limit exchange unit merge index (One sym) log
  = (match table sym with inl e => inl e | inr df => inr (Frame df) end,
     log ++ sent sym).
Proof.
  unfold symbol_price_hist, table, table_of. unfold bind at 1.
  fold single. rewrite single_run.
  destruct (fst (single sym [])) as [e|df]; [reflexivity|].
  rewrite bind_lift. destruct (convert_time env df) as [e|df']; [reflexivity|].
  unfold bind. destruct (String.eqb index ""); simpl; [reflexivity|].
  unfold lift. destruct (Pandas.set_index (py_str env) index df'); reflexivity.
Qed.

Lemma table_of_fetch_one (merge : bool) (sym : CryptoSymbol) (log : Log)
    (df : DataFrame) :
  fst (symbol_price_hist env limit exchange unit merge index (One sym) log)
  = inr (Frame df) <-> table sym = inr df.
Proof.
  rewrite fetch_one_run. simpl. destruct (table sym); split; congruence.
Qed.

Lemma table_of_fetch_one_error (merge : bool) (sym : CryptoSymbol) (log : Log)
    (e : Exn) :
  fst (symbol_price_hist env limit exchange unit merge index (One sym) log)
  = inl e <-> table sym = inl e.
Proof.
  rewrite fetch_one_run. simpl. destruct (table sym); split; congruence.
Qed.

Lemma loop_body_run (merge : bool) (sym : CryptoSymbol)
    (data : Dict.t DataFrame) (log : Log) :
  loop_body env limit exchange unit merge index sym data log
  = (match table sym with
     | inl e => inl e
     | inr df => inr (Dict.set (to_string sym) (stored merge sym df) data)
     end, log ++ sent sym).
Proof.
  unfold loop_body, table, table_of, stored. unfold bind at 1.
  fold single. rewrite single_run.
  destruct (fst (single sym [])) as [e|df]; [reflexivity|].
  unfold in_place at 1. unfold bind at 1. rewrite bind_lift.
  unfold Dict.getitem at 1. rewrite DictFacts.get_set_same.
  rewrite bind_lift.
  destruct (convert_time env df) as [e|df1]; [reflexivity|].
  unfold ret at 1. rewrite DictFacts.set_set.
  destruct (String.eqb index "").
  - unfold bind, ret. destruct merge; [|reflexivity].
    unfold in_place, bind, lift, ret, Dict.getitem.
    rewrite DictFacts.get_set_same. now rewrite DictFacts.set_set.
  - unfold bind at 1. unfold in_place at 1. rewrite bind_lift.
    unfold Dict.getitem at 1. rewrite DictFacts.get_set_same.
    rewrite bind_lift.
    destruct (Pandas.set_index (py_str env) index df1) as [e|df2]; [reflexivity|].
    unfold ret at 1. rewrite DictFacts.set_set.
    destruct merge; [|reflexivity].
    unfold in_place, bind, lift, ret, Dict.getitem.
    rewrite DictFacts.get_set_same. now rewrite DictFacts.set_set.
Qed.

End OneSymbol.

(** ** The loop over the symbols *)

Section Loop.

Variable env : Env.
Variable limit : Z.
Variable exchange : option string.
Variable unit : string.
Variable merge : bool.
Variable index : string.

Let sent := issued limit exchange unit.
Let table := table_of env limit exchange unit index.
Let body := loop_body env limit exchange unit merge index.

Lemma loop_all_ok (tbl : CryptoSymbol -> DataFrame) (syms : list CryptoSymbol) :
  (forall s, In s syms -> table s = inr (tbl s)) ->
  forall data log,
    for_each body syms data log
    = (inr (filled merge tbl syms data), log ++ flat_map sent syms).
Proof.
  induction syms as [|a rest IH]; intros Hok data log; simpl.
  - unfold ret. now rewrite app_nil_r.
  - unfold bind, body at 1. rewrite loop_body_run.
    fold table. rewrite (Hok a) by now left.
    rewrite IH by (intros s Hs; apply Hok; now right).
    unfold sent, filled. simpl. now rewrite app_assoc.
Qed.

Lemma loop_first_failure (tbl : CryptoSymbol -> DataFrame)
    (pre post : list CryptoSymbol) (bad : CryptoSymbol) (e : Exn) :
  (forall s, In s pre -> table s = inr (tbl s)) ->
  table bad = inl e ->
  forall data log,
    for_each body (pre ++ bad :: post) data log
    = (inl e, log ++ flat_map sent pre ++ sent bad).
Proof.
  induction pre as [|a rest IH]; intros Hok Hbad data log; simpl.
  - unfold bind, body at 1. rewrite loop_body_run.
    fold table. now rewrite Hbad.
  - unfold bind, body at 1. rewrite loop_body_run.
    fold table. rewrite (Hok a) by now left.
    rewrite IH by (try assumption; intros s Hs; apply Hok; now right).
    unfold sent. now rewrite <- !app_assoc.
Qed.

Lemma exists_first_failure (syms : list CryptoSymbol) (s : CryptoSymbol)
    (e : Exn) :
  In s syms -> table s = inl e ->
  exists pre bad post e',
    syms = pre ++ bad :: post
    /\ (forall p, In p pre -> exists df, table p = inr df)
    /\ table bad = inl e'.
Proof.
  induction syms as [|a rest IH]; intros Hin Hs; [contradiction|].
  destruct (table a) as [ea|df] eqn:Ea.
  - exists [], a, rest, ea. repeat split; [|assumption]. intros p [].
  - destruct Hin as [->|Hin]; [congruence|].
    destruct (IH Hin Hs) as (pre & bad & post & e' & -> & Hpre & Hbad).
    exists (a :: pre), bad, post, e'. repeat split; [|assumption].
    intros p [<-|Hp]; [now exists df|now apply Hpre].
Qed.

End Loop.

(** ** Validation, errors and the single-symbol path *)

Lemma url_of_unit_unknown (unit : string) :
  unit <> "minute" -> unit <> "hour" -> unit <> "day" -> url_of_unit unit = None.
Proof.
  intros Hm Hh Hd. unfold url_of_unit. cbn [Dict.get].
  apply not_eq_sym, String.eqb_neq in Hm.
  apply not_eq_sym, String.eqb_neq in Hh.
  apply not_eq_sym, String.eqb_neq in Hd.
  now rewrite Hm, Hh, Hd.
Qed.

Lemma table_of_unknown_unit env limit exchange unit index sym :
  url_of_unit unit = None ->
  table_of env limit exchange unit index sym = inl invalid_unit
  /\ issued limit exchange unit sym = [].
Proof.
  intros H. unfold table_of, _single_symbol_price_hist, issued, request_of.
  now rewrite H.
Qed.

(** C4. A unit other than minute, hour or day makes the fetch raise the
    invalid-unit [ValueError] with the request log unchanged, for one
    symbol and for a non-empty collection alike. *)
Theorem unknown_unit_fails_before_any_request
    (env : Env) (limit : Z) (exchange : option string) (unit : string)
    (merge : bool) (index : string) (log : Log) :
  unit <> "minute" -> unit <> "hour" -> unit <> "day" ->
  (forall sym,
      symbol_price_hist env limit exchange unit merge index (One sym) log
      = (inl invalid_unit, log))
  /\ (forall syms, syms <> [] ->
      symbol_price_hist env limit exchange unit merge index (Many syms) log
      = (inl invalid_unit, log)).
Proof.
  intros Hm Hh Hd. pose proof (url_of_unit_unknown Hm Hh Hd) as Hu. split.
  - intros sym. rewrite fetch_one_run.
    destruct (@table_of_unknown_unit env limit exchange unit index sym Hu) as [-> ->].
    now rewrite app_nil_r.
  - intros [|a rest] Hne; [contradiction|].
    destruct (@table_of_unknown_unit env limit exchange unit index a Hu) as [Ht Hs].
    unfold symbol_price_hist, bind.
    rewrite (@loop_first_failure env limit exchange unit merge index
               (fun _ => mkDataFrame None [] []) [] rest a invalid_unit);
      [|intros s []|exact Ht].
    simpl. now rewrite Hs, app_nil_r.
Qed.

Lemma unknown_unit_fails_before_any_request_witness :
  (forall sym,
      symbol_price_hist Sample.env 2000 None "week" false "time" (One sym) []
      = (inl invalid_unit, []))
  /\ (forall syms, syms <> [] ->
      symbol_price_hist Sample.env 2000 None "week" false "time" (Many syms) []
      = (inl invalid_unit, [])).
Proof.
  apply unknown_unit_fails_before_any_request; discriminate.
Defined.

Lemma contains_suffix (a b : string) : Str.contains (a +++ b) b.
Proof.
  exists a, "". f_equal. induction b as [|c rest IH]; simpl; [reflexivity|].
  now rewrite <- IH.
Qed.

(** C5. When the transport succeeds and the body's ["Response"] is not
    ["Success"], the fetch raises [ValueError("API Error: " + message)]
    for the body's ["Message"] text after the one request, and returns
    no table. *)
Theorem api_error_carries_message
    (env : Env) (limit : Z) (exchange : option string) (unit : string)
    (merge : bool) (index : string) (sym : CryptoSymbol) (log : Log)
    (endpoint : string) (status : Z) (body : Dict.t pyobj) (message : string) :
  url_of_unit unit = Some endpoint ->
  requests_get env (mkRequest endpoint (request_params sym limit exchange))
  = Response status (Some (PyDict body)) ->
  ((400 <=? status)%Z && (status <? 600)%Z)%bool = false ->
  Dict.get "Response" body <> Some (PyStr "Success") ->
  Dict.get "Message" body = Some (PyStr message) ->
  let rq := mkRequest endpoint (request_params sym limit exchange) in
  _single_symbol_price_hist env limit exchange unit sym log
  = (inl (ValueError ("API Error: " +++ message)), log ++ [rq])
  /\ symbol_price_hist env limit exchange unit merge index (One sym) log
     = (inl (ValueError ("API Error: " +++ message)), log ++ [rq])
  /\ Str.contains ("API Error: " +++ message) message.
Proof.
  intros Hu Hget Hst Hresp Hmsg rq. subst rq.
  set (rq := mkRequest endpoint (request_params sym limit exchange)) in *.
  assert (Hsingle : forall l,
             _single_symbol_price_hist env limit exchange unit sym l
             = (inl (ValueError ("API Error: " +++ message)), l ++ [rq])).
  { intros l. unfold _single_symbol_price_hist. rewrite Hu.
    rewrite bind_http. fold rq. rewrite Hget, Hst.
    rewrite bind_lift. simpl py_get. cbv beta iota.
    assert (Hn : is_not_success
                   match Dict.get "Response" body with
                   | Some v => v
                   | None => PyNone
                   end = true).
    { destruct (Dict.get "Response" body) as [[| | | |s| |]|]; try reflexivity.
      simpl. destruct (String.eqb s "Success") eqn:E; [|reflexivity].
      apply String.eqb_eq in E. subst s. now elim Hresp. }
    rewrite Hn, bind_lift. simpl py_get. cbv beta iota. now rewrite Hmsg. }
  split; [apply Hsingle|]. split; [|apply contains_suffix].
  rewrite fetch_one_run. unfold table_of, issued, request_of.
  rewrite Hsingle, Hu. reflexivity.
Qed.

Lemma api_error_carries_message_witness :
  let rq := mkRequest "https://min-api.cryptocompare.com/data/v2/histoday"
                      (request_params Sample.xxx_usd 2000 None) in
  _single_symbol_price_hist Sample.env 2000 None "day" Sample.xxx_usd []
  = (inl (ValueError "API Error: market does not exist"), [rq])
  /\ symbol_price_hist Sample.env 2000 None "day" false "time"
       (One Sample.xxx_usd) []
     = (inl (ValueError "API Error: market does not exist"), [rq])
  /\ Str.contains "API Error: market does not exist" "market does not exist".
Proof.
  apply (@api_error_carries_message Sample.env 2000 None "day" false "time"
           Sample.xxx_usd [] _ 200
           [("Response", PyStr "Error"); ("Message", PyStr "market does not exist")]
           "market does not exist");
    [reflexivity|reflexivity|reflexivity|discriminate|reflexivity].
Defined.

(** C7. If the fetch of any one symbol of a collection fails, the fetch
    of the collection fails: it raises the error of the first symbol
    that fails, unchanged, right after that symbol's own request, and no
    mapping or table is returned. *)
Theorem failure_fails_whole_fetch
    (env : Env) (limit : Z) (exchange : option string) (unit : string)
    (merge : bool) (index : string) (syms : list CryptoSymbol)
    (sym : CryptoSymbol) (e : Exn) (log : Log) :
  In sym syms ->
  fst (symbol_price_hist env limit exchange unit merge index (One sym) log)
  = inl e ->
  exists pre bad post e',
    syms = pre ++ bad :: post
    /\ (forall p, In p pre -> exists df,
           fst (symbol_price_hist env limit exchange unit merge index (One p) log)
           = inr (Frame df))
    /\ fst (symbol_price_hist env limit exchange unit merge index (One bad) log)
       = inl e'
    /\ symbol_price_hist env limit exchange unit merge index (Many syms) log
       = (inl e', log ++ flat_map (issued limit exchange unit) pre
                      ++ issued limit exchange unit bad).
Proof.
  intros Hin Hfail. apply table_of_fetch_one_error in Hfail.
  destruct (exists_first_failure env limit exchange unit index syms sym Hin Hfail)
    as (pre & bad & post & e' & -> & Hpre & Hbad).
  exists pre, bad, post, e'. split; [reflexivity|]. split; [|split].
  - intros p Hp. destruct (Hpre p Hp) as [df Hdf]. exists df.
    now apply table_of_fetch_one.
  - now apply table_of_fetch_one_error.
  - unfold symbol_price_hist, bind.
    rewrite (@loop_first_failure env limit exchange unit merge index
               (fun s => match table_of env limit exchange unit index s with
                         | inr df => df
                         | inl _ => mkDataFrame None [] []
                         end) pre post bad e'); [reflexivity| |assumption].
    intros s Hs. destruct (Hpre s Hs) as [df ->]. reflexivity.
Qed.

Lemma failure_fails_whole_fetch_witness :
  exists pre bad post e',
    [Sample.btc_usd; Sample.xxx_usd; Sample.eth_btc] = pre ++ bad :: post
    /\ (forall p, In p pre -> exists df,
           fst (symbol_price_hist Sample.env 2000 None "day" false "time" (One p) [])
           = inr (Frame df))
    /\ fst (symbol_price_hist Sample.env 2000 None "day" false "time" (One bad) [])
       = inl e'
    /\ symbol_price_hist Sample.env 2000 None "day" false "time"
         (Many [Sample.btc_usd; Sample.xxx_usd; Sample.eth_btc]) []
       = (inl e', [] ++ flat_map (issued 2000 None "day") pre
                     ++ issued 2000 None "day" bad).
Proof.
  apply (@failure_fails_whole_fetch Sample.env 2000 None "day" false "time"
           [Sample.btc_usd; Sample.xxx_usd; Sample.eth_btc] Sample.xxx_usd
           (ValueError "API Error: market does not exist") []).
  - right. left. reflexivity.
  - reflexivity.
Defined.

(** C9. For a single symbol the result is the symbol's own table (time
    converted, indexed when [index] is not empty), and it is the same
    whether [merge] is true or false. *)
Theorem merge_ignored_for_one_symbol
    (env : Env) (limit : Z) (exchange : option string) (unit index : string)
    (sym : CryptoSymbol) (log : Log) :
  symbol_price_hist env limit exchange unit true index (One sym) log
  = symbol_price_hist env limit exchange unit false index (One sym) log
  /\ forall merge,
      symbol_price_hist env limit exchange unit merge index (One sym) log
      = (match table_of env limit exchange unit index sym with
         | inl e => inl e
         | inr df => inr (Frame df)
         end, log ++ issued limit exchange unit sym).
Proof.
  split; [reflexivity|]. intros merge. apply fetch_one_run.
Qed.

(** C10. An empty collection with [merge=False] returns the empty
    mapping, whatever the unit, and issues no request. *)
Theorem empty_collection_unmerged
    (env : Env) (limit : Z) (exchange : option string) (unit index : string)
    (log : Log) :
  symbol_price_hist env limit exchange unit false index (Many []) log
  = (inr (Mapping []), log).
Proof. reflexivity. Qed.

(** ** The unmerged mapping *)

Section Filled.

Variable merge : bool.
Variable tbl : CryptoSymbol -> DataFrame.

Let entry (s : CryptoSymbol) := (to_string s, stored merge s (tbl s)).

Lemma filled_cons (a : CryptoSymbol) (rest : list CryptoSymbol)
    (d : Dict.t DataFrame) :
  filled merge tbl (a :: rest) d
  = filled merge tbl rest (Dict.set (to_string a) (stored merge a (tbl a)) d).
Proof. reflexivity. Qed.

Lemma keys_filled (syms : list CryptoSymbol) :
  forall d,
    Dict.keys (filled merge tbl syms d)
    = Dict.keys d ++ first_seen (Dict.keys d) (map to_string syms).
Proof.
  induction syms as [|a rest IH]; intros d.
  - simpl. now rewrite app_nil_r.
  - rewrite filled_cons, IH, DictFacts.keys_set. simpl.
    destruct (Pandas.mem (to_string a) (Dict.keys d)); [reflexivity|].
    now rewrite <- app_assoc.
Qed.

Lemma NoDup_keys_filled (syms : list CryptoSymbol) :
  forall d, NoDup (Dict.keys d) -> NoDup (Dict.keys (filled merge tbl syms d)).
Proof.
  induction syms as [|a rest IH]; intros d Hd; [exact Hd|].
  rewrite filled_cons. apply IH. rewrite DictFacts.keys_set.
  destruct (Pandas.mem (to_string a) (Dict.keys d)) eqn:E; [exact Hd|].
  apply DictFacts.mem_not_In in E.
  apply NoDup_app; [exact Hd|repeat constructor; intros []|].
  intros k Hk [<-|[]]. contradiction.
Qed.

Lemma get_filled_other (k : string) (syms : list CryptoSymbol) :
  ~ In k (map to_string syms) ->
  forall d, Dict.get k (filled merge tbl syms d) = Dict.get k d.
Proof.
  induction syms as [|a rest IH]; intros Hk d; [reflexivity|].
  rewrite filled_cons, IH by (intros H; apply Hk; now right).
  apply DictFacts.get_set_other. intros ->. apply Hk. now left.
Qed.

Lemma get_filled (syms : list CryptoSymbol) :
  (forall a b, In a syms -> In b syms -> to_string a = to_string b -> a = b) ->
  forall s d,
    In s syms ->
    Dict.get (to_string s) (filled merge tbl syms d)
    = Some (stored merge s (tbl s)).
Proof.
  induction syms as [|a rest IH]; intros Hinj s d Hs; [contradiction|].
  rewrite filled_cons.
  destruct (in_dec string_dec (to_string s) (map to_string rest)) as [Hin|Hout].
  - apply in_map_iff in Hin. destruct Hin as (s' & Heq & Hs').
    assert (s' = s) by (apply Hinj; [now right|assumption|assumption]).
    subst s'. apply IH; [|assumption].
    intros x y Hx Hy. apply Hinj; now right.
  - destruct Hs as [->|Hs]; [|elim Hout; now apply in_map].
    rewrite get_filled_other by assumption. apply DictFacts.get_set_same.
Qed.

Lemma filled_distinct (syms : list CryptoSymbol) :
  forall d,
    NoDup (Dict.keys d ++ map to_string syms) ->
    filled merge tbl syms d = d ++ map entry syms.
Proof.
  induction syms as [|a rest IH]; intros d Hnd.
  - simpl. now rewrite app_nil_r.
  - rewrite filled_cons. simpl in Hnd.
    pose proof (NoDup_remove_2 _ _ _ Hnd) as Hfresh.
    rewrite DictFacts.set_fresh
      by (intros H; apply Hfresh, in_or_app; now left).
    rewrite IH.
    + now rewrite <- app_assoc.
    + unfold Dict.keys in *. rewrite map_app, <- app_assoc. exact Hnd.
Qed.

Lemma first_seen_distinct (l : list string) :
  forall seen, NoDup (seen ++ l) -> first_seen seen l = l.
Proof.
  induction l as [|x rest IH]; intros seen Hnd; [reflexivity|]. simpl.
  pose proof (NoDup_remove_2 _ _ _ Hnd) as Hfresh.
  assert (E : Pandas.mem x seen = false)
    by (apply DictFacts.mem_not_In; intros H; apply Hfresh, in_or_app; now left).
  rewrite E. f_equal. apply IH. now rewrite <- app_assoc.
Qed.

End Filled.

(** X2. Identifiers whose fields contain no ['/'] are told apart by
    their strings.  (With a ['/'] in a field they need not be:
    [("A/B", "C")] and [("A", "B/C")] both print as ["A/B/C"].) *)
Lemma to_string_injective (a b : CryptoSymbol) :
  Str.free Str.sep (symbol a) -> Str.free Str.sep (pair a) ->
  Str.free Str.sep (symbol b) -> Str.free Str.sep (pair b) ->
  to_string a = to_string b -> a = b.
Proof.
  intros Ha1 Ha2 Hb1 Hb2 H.
  pose proof (from_string_to_string Ha1 Ha2) as Fa.
  pose proof (from_string_to_string Hb1 Hb2) as Fb.
  destruct a, b. simpl in *. rewrite H in Fa. congruence.
Qed.

(** C6. With [merge=False], when each symbol's own fetch succeeds the
    result is a mapping with one key per symbol string, in the order the
    symbols first occur in the input, each key holding that symbol's
    indexed, unprefixed table; for symbols with distinct strings the
    mapping is exactly the list of (string, table) pairs in input
    order.  One request per symbol is issued. *)
Theorem unmerged_mapping
    (env : Env) (limit : Z) (exchange : option string) (unit index : string)
    (syms : list CryptoSymbol) (tbl : CryptoSymbol -> DataFrame) (log : Log) :
  (forall s, In s syms ->
     fst (symbol_price_hist env limit exchange unit false index (One s) log)
     = inr (Frame (tbl s))) ->
  (forall a b, In a syms -> In b syms -> to_string a = to_string b -> a = b) ->
  exists data,
    symbol_price_hist env limit exchange unit false index (Many syms) log
    = (inr (Mapping data), log ++ flat_map (issued limit exchange unit) syms)
    /\ Dict.keys data = first_occurrences (map to_string syms)
    /\ NoDup (Dict.keys data)
    /\ (forall s, In s syms -> Dict.get (to_string s) data = Some (tbl s))
    /\ (NoDup (map to_string syms) ->
        data = map (fun s => (to_string s, tbl s)) syms).
Proof.
  intros Hok Hinj. exists (filled false tbl syms []).
  split; [|split; [|split; [|split]]].
  - unfold symbol_price_hist, bind.
    rewrite (@loop_all_ok env limit exchange unit false index tbl syms);
      [reflexivity|].
    intros s Hs. apply (table_of_fetch_one env limit exchange unit index false s log).
    now apply Hok.
  - now rewrite keys_filled.
  - apply NoDup_keys_filled. constructor.
  - intros s Hs. now rewrite get_filled.
  - intros Hnd. now rewrite filled_distinct.
Qed.

Lemma unmerged_mapping_witness :
  exists data,
    symbol_price_hist Sample.env 2000 None "day" false "time"
      (Many [Sample.btc_usd; Sample.eth_btc]) []
    = (inr (Mapping data),
       [] ++ flat_map (issued 2000 None "day") [Sample.btc_usd; Sample.eth_btc])
    /\ Dict.keys data
       = first_occurrences (map to_string [Sample.btc_usd; Sample.eth_btc])
    /\ NoDup (Dict.keys data)
    /\ (forall s, In s [Sample.btc_usd; Sample.eth_btc] ->
          Dict.get (to_string s) data = Some (Sample.table s))
    /\ (NoDup (map to_string [Sample.btc_usd; Sample.eth_btc]) ->
        data = map (fun s => (to_string s, Sample.table s))
                   [Sample.btc_usd; Sample.eth_btc]).
Proof.
  apply (@unmerged_mapping Sample.env 2000 None "day" "time"
           [Sample.btc_usd; Sample.eth_btc] Sample.table []).
  - intros s [<-|[<-|[]]]; reflexivity.
  - intros a b [<-|[<-|[]]] [<-|[<-|[]]] H; try reflexivity; discriminate H.
Defined.

(** ** The outer join *)

Module PandasFacts.
Import Pandas.


Lemma existsb_is_label (k : cell) (l : list cell) :
  existsb (is_label k) l = true <-> In k l.
Proof.
  rewrite existsb_exists. unfold is_label. split.
  - intros (o & Ho & E). destruct (cell_eq_dec o k); [now subst|discriminate].
  - intros Hk. exists k. split; [assumption|].
    destruct (cell_eq_dec k k); congruence.
Qed.


Lemma filter_none {A} (f : A -> bool) (l : list A) :
  (forall x, In x l -> f x = false) -> filter f l = [].
Proof.
  induction l as [|x rest IH]; intros H; simpl; [reflexivity|].
  rewrite (H x) by now left. apply IH. intros y Hy. apply H. now right.
Qed.

(** An order that lists each label once is used as it is. *)
Lemma arrange_arranged (wanted labels : list cell) :
  NoDup wanted -> (forall k, In k wanted <-> In k labels) ->
  arrange wanted labels = wanted.
Proof.
  intros Hnd Hsame. unfold arrange. rewrite (nodup_fixed_point _ Hnd).
  rewrite (@filter_none _ (fun k => negb (existsb (is_label k) wanted)) labels).
  - rewrite app_nil_r. apply forallb_filter_id, forallb_forall.
    intros k Hk. now apply existsb_is_label, Hsame.
  - intros k Hk. apply negb_false_iff, existsb_is_label. now apply Hsame.
Qed.


(** *** Integer columns stored as floats *)













Lemma suffix_duplicates_same (l : list string) : suffix_duplicates l l = false.
Proof.
  unfold suffix_duplicates. generalize (duplicated l). intros bs.
  induction bs as [|b rest IH]; simpl; [reflexivity|].
  rewrite IH. now destruct b.
Qed.

Lemma map_no_overlap (suffix : string) (l r : list string) :
  (forall c, In c l -> ~ In c r) ->
  map (fun c => if mem c r then c +++ suffix else c) l = l.
Proof.
  induction l as [|c rest IH]; intros Hd; simpl; [reflexivity|].
  assert (E : mem c r = false)
    by (apply DictFacts.mem_not_In, Hd; now left).
  rewrite E, IH; [reflexivity|]. intros x Hx. apply Hd. now right.
Qed.

(** Without a shared column label the merge succeeds and keeps every
    label as it is. *)
Lemma merge_outer_disjoint (order : list cell -> list cell -> list cell)
    (l r : DataFrame) :
  (forall c, In c (columns l) -> ~ In c (columns r)) ->
  merge_outer order l r
  = inr (mkDataFrame (joined_name l r) (columns l ++ columns r)
           (flat_map (join_key (joined_side (joined_labels order l r) l)
                               (joined_side (joined_labels order l r) r))
                     (joined_labels order l r))).
Proof.
  intros Hd. unfold merge_outer.
  rewrite (@map_no_overlap "_x" (columns l) (columns r) Hd).
  rewrite (@map_no_overlap "_y" (columns r) (columns l))
    by (intros c Hr Hl; exact (Hd c Hl Hr)).
  now rewrite !suffix_duplicates_same.
Qed.



End PandasFacts.

(** ** Joining the tables one after the other *)

Section Join.









Variable env : Env.
Variable data : Dict.t DataFrame.
Variable tb : CryptoSymbol -> DataFrame.


End Join.

(** ** The merged table *)





Ltac distinct_strings :=
  repeat (constructor; [simpl; intuition discriminate|]); constructor.



(** * Further properties *)

(** ** Identifiers *)

Lemma to_string_injective_witness :
  from_string "BTC/USD" = inr Sample.btc_usd
  /\ Sample.btc_usd = mkCryptoSymbol "BTC" "USD".
Proof.
  split; [reflexivity|].
  apply (@to_string_injective Sample.btc_usd (mkCryptoSymbol "BTC" "USD"));
    reflexivity.
Defined.

Lemma count_to_string (c : CryptoSymbol) :
  Str.count Str.sep (to_string c)
  = Str.count Str.sep (symbol c) + 1 + Str.count Str.sep (pair c).
Proof.
  unfold to_string. rewrite StrFacts.count_app. simpl. lia.
Qed.

Lemma from_string_wrong_length (s : string) :
  List.length (Str.split Str.sep s) <> 2 ->
  from_string s = inl (TypeError "'ValueError' object is not callable").
Proof.
  intros H. unfold from_string, unpack2.
  destruct (Str.split Str.sep s) as [|a [|b [|x rest]]]; simpl in *;
    try reflexivity.
  now elim H.
Qed.

(** X1. Parsing what [to_string] printed gives the identifier back
    exactly when neither field contains a ['/']; otherwise the string
    has more than one separator and parsing raises the [TypeError]. *)
Theorem from_string_of_to_string (c : CryptoSymbol) :
  from_string (to_string c)
  = if (Str.count Str.sep (symbol c) + Str.count Str.sep (pair c) =? 0)%nat
    then inr c
    else inl (TypeError "'ValueError' object is not callable").
Proof.
  destruct (Nat.eqb_spec (Str.count Str.sep (symbol c)
                          + Str.count Str.sep (pair c)) 0) as [E|E].
  - destruct c as [base quote]. simpl in E.
    apply from_string_to_string; unfold Str.free; lia.
  - apply from_string_wrong_length.
    rewrite StrFacts.split_length, count_to_string. lia.
Qed.

(** ** Endpoints and request parameters *)

(** X3. A unit is accepted exactly when it is one of the three names,
    spelled in lower case, and its endpoint is the [histo<unit>] page of
    the API. *)
Theorem url_of_unit_known (unit endpoint : string) :
  url_of_unit unit = Some endpoint
  <-> (unit = "minute" \/ unit = "hour" \/ unit = "day")
      /\ endpoint = "https://min-api.cryptocompare.com/data/v2/histo" +++ unit.
Proof.
  unfold url_of_unit. cbn [Dict.get]. split.
  - destruct (String.eqb_spec "minute" unit) as [<-|_];
      [intros H; inversion H; auto|].
    destruct (String.eqb_spec "hour" unit) as [<-|_];
      [intros H; inversion H; auto|].
    destruct (String.eqb_spec "day" unit) as [<-|_];
      [intros H; inversion H; auto|].
    discriminate.
  - intros [[ -> | [ -> | -> ]] -> ]; reflexivity.
Qed.

(** X4. An empty [exchange] is sent like no exchange at all: the whole
    fetch is the same for [""] and [None]; any other exchange is sent as
    the parameter [e], after [fsym], [tsym] and [limit]. *)
Theorem empty_exchange_is_no_exchange
    (env : Env) (limit : Z) (unit : string) (merge : bool) (index : string)
    (arg : SymbolArg) (log : Log) :
  symbol_price_hist env limit (Some "") unit merge index arg log
  = symbol_price_hist env limit None unit merge index arg log
  /\ forall sym c rest,
      request_params sym limit (Some (String c rest))
      = [("fsym", PyStr (symbol sym)); ("tsym", PyStr (pair sym));
         ("limit", PyInt limit); ("e", PyStr (String c rest))].
Proof.
  split; [|reflexivity]. destruct arg; reflexivity.
Qed.

(** ** What one fetch makes of the upstream's answer *)

Lemma fetch_one_single_error
    (env : Env) (limit : Z) (exchange : option string) (unit : string)
    (merge : bool) (index : string) (sym : CryptoSymbol) (e : Exn) :
  fst (_single_symbol_price_hist env limit exchange unit sym []) = inl e ->
  forall log,
    symbol_price_hist env limit exchange unit merge index (One sym) log
    = (inl e, log ++ issued limit exchange unit sym).
Proof.
  intros H log. rewrite fetch_one_run. unfold table_of. now rewrite H.
Qed.

Lemma issued_known (limit : Z) (exchange : option string)
    (unit endpoint : string) (sym : CryptoSymbol) :
  url_of_unit unit = Some endpoint ->
  issued limit exchange unit sym
  = [mkRequest endpoint (request_params sym limit exchange)].
Proof. intros H. unfold issued, request_of. now rewrite H. Qed.

(** X5. A 4xx or 5xx status raises [HTTPError] with that status after
    the one request, whatever the body says, even a body that reports
    success. *)
Theorem http_error_status_raises
    (env : Env) (limit : Z) (exchange : option string) (unit : string)
    (merge : bool) (index : string) (sym : CryptoSymbol) (log : Log)
    (endpoint : string) (status : Z) (body : option pyobj) :
  url_of_unit unit = Some endpoint ->
  requests_get env (mkRequest endpoint (request_params sym limit exchange))
  = Response status body ->
  (400 <= status < 600)%Z ->
  symbol_price_hist env limit exchange unit merge index (One sym) log
  = (inl (HTTPError status),
     log ++ [mkRequest endpoint (request_params sym limit exchange)]).
Proof.
  intros Hu Hget Hst.
  rewrite <- (@issued_known limit exchange unit endpoint sym Hu).
  apply fetch_one_single_error.
  unfold _single_symbol_price_hist. rewrite Hu, bind_http, Hget.
  replace ((400 <=? status)%Z && (status <? 600)%Z)%bool with true;
    [reflexivity|].
  symmetry. apply andb_true_iff. split; [apply Z.leb_le|apply Z.ltb_lt]; lia.
Qed.

Lemma http_error_status_raises_witness :
  symbol_price_hist Faulty.env 2000 None "hour" false "time"
    (One (Faulty.named "LIMIT")) []
  = (inl (HTTPError 429),
     [] ++ [mkRequest "https://min-api.cryptocompare.com/data/v2/histohour"
              (request_params (Faulty.named "LIMIT") 2000 None)]).
Proof.
  apply (@http_error_status_raises Faulty.env 2000 None "hour" false "time"
           (Faulty.named "LIMIT") [] _ 429
           (Some (PyDict [("Response", PyStr "Success");
                          ("Data", PyDict [("Data", PyList [])])])));
    [reflexivity|reflexivity|lia].
Defined.

(** X6. When the transport gives no response, the fetch raises
    [RequestException] with the transport's reason; the attempt counts
    as the symbol's request and is not repeated. *)
Theorem no_response_raises
    (env : Env) (limit : Z) (exchange : option string) (unit : string)
    (merge : bool) (index : string) (sym : CryptoSymbol) (log : Log)
    (endpoint reason : string) :
  url_of_unit unit = Some endpoint ->
  requests_get env (mkRequest endpoint (request_params sym limit exchange))
  = NoResponse reason ->
  symbol_price_hist env limit exchange unit merge index (One sym) log
  = (inl (RequestException reason),
     log ++ [mkRequest endpoint (request_params sym limit exchange)]).
Proof.
  intros Hu Hget.
  rewrite <- (@issued_known limit exchange unit endpoint sym Hu).
  apply fetch_one_single_error.
  unfold _single_symbol_price_hist. now rewrite Hu, bind_http, Hget.
Qed.

Lemma no_response_raises_witness :
  symbol_price_hist Faulty.env 2000 None "day" false "time"
    (One (Faulty.named "OFF")) []
  = (inl (RequestException "connection refused"),
     [] ++ [mkRequest "https://min-api.cryptocompare.com/data/v2/histoday"
              (request_params (Faulty.named "OFF") 2000 None)]).
Proof.
  apply (@no_response_raises Faulty.env 2000 None "day" false "time"
           (Faulty.named "OFF") [] _ "connection refused"); reflexivity.
Defined.

(** X7. A body that is not JSON raises [JSONDecodeError], and a JSON
    body that is not an object raises [AttributeError] at its first
    [.get]: neither is reported as an API error. *)
Theorem unusable_body_raises
    (env : Env) (limit : Z) (exchange : option string) (unit : string)
    (merge : bool) (index : string) (sym : CryptoSymbol) (log : Log)
    (endpoint : string) (status : Z) (body : option pyobj) :
  url_of_unit unit = Some endpoint ->
  requests_get env (mkRequest endpoint (request_params sym limit exchange))
  = Response status body ->
  ((400 <=? status)%Z && (status <? 600)%Z)%bool = false ->
  match body with Some (PyDict _) => False | _ => True end ->
  symbol_price_hist env limit exchange unit merge index (One sym) log
  = (inl match body with
         | None => JSONDecodeError
         | Some data =>
             AttributeError
               ("'" +++ type_name data +++ "' object has no attribute 'get'")
         end,
     log ++ [mkRequest endpoint (request_params sym limit exchange)]).
Proof.
  intros Hu Hget Hst Hbody.
  rewrite <- (@issued_known limit exchange unit endpoint sym Hu).
  apply fetch_one_single_error.
  unfold _single_symbol_price_hist. rewrite Hu, bind_http, Hget, Hst.
  destruct body as [[| | | | | |]|]; try reflexivity. contradiction.
Qed.

Lemma unusable_body_raises_witness :
  symbol_price_hist Faulty.env 2000 None "day" false "time"
    (One (Faulty.named "LIST")) []
  = (inl (AttributeError "'list' object has no attribute 'get'"),
     [] ++ [mkRequest "https://min-api.cryptocompare.com/data/v2/histoday"
              (request_params (Faulty.named "LIST") 2000 None)]).
Proof.
  apply (@unusable_body_raises Faulty.env 2000 None "day" false "time"
           (Faulty.named "LIST") [] _ 200 (Some (PyList [])));
    [reflexivity|reflexivity|reflexivity|exact I].
Defined.

(** X8. A body that reports success but has no records, ["Data"]
    missing at the top or inside ["Data"], raises [KeyError('Data')]
    after the request. *)
Theorem success_without_records_raises
    (env : Env) (limit : Z) (exchange : option string) (unit : string)
    (merge : bool) (index : string) (sym : CryptoSymbol) (log : Log)
    (endpoint : string) (status : Z) (body : Dict.t pyobj) :
  url_of_unit unit = Some endpoint ->
  requests_get env (mkRequest endpoint (request_params sym limit exchange))
  = Response status (Some (PyDict body)) ->
  ((400 <=? status)%Z && (status <? 600)%Z)%bool = false ->
  Dict.get "Response" body = Some (PyStr "Success") ->
  (Dict.get "Data" body = None
   \/ exists inner, Dict.get "Data" body = Some (PyDict inner)
                    /\ Dict.get "Data" inner = None) ->
  symbol_price_hist env limit exchange unit merge index (One sym) log
  = (inl (KeyError "Data"),
     log ++ [mkRequest endpoint (request_params sym limit exchange)]).
Proof.
  intros Hu Hget Hst Hresp Hdata.
  rewrite <- (@issued_known limit exchange unit endpoint sym Hu).
  apply fetch_one_single_error.
  unfold _single_symbol_price_hist. rewrite Hu, bind_http, Hget, Hst.
  rewrite bind_lift. cbn [py_get]. rewrite Hresp. cbn [is_not_success].
  change (negb ("Success" =? "Success")%string) with false. cbv iota.
  rewrite bind_lift. cbn [py_getitem].
  destruct Hdata as [->|(inner & -> & Hinner)]; [reflexivity|].
  rewrite bind_lift. cbn [py_getitem]. now rewrite Hinner.
Qed.

Lemma success_without_records_raises_witness :
  symbol_price_hist Faulty.env 2000 None "day" false "time"
    (One (Faulty.named "HALF")) []
  = (inl (KeyError "Data"),
     [] ++ [mkRequest "https://min-api.cryptocompare.com/data/v2/histoday"
              (request_params (Faulty.named "HALF") 2000 None)]).
Proof.
  apply (@success_without_records_raises Faulty.env 2000 None "day" false
           "time" (Faulty.named "HALF") [] _ 200
           [("Response", PyStr "Success");
            ("Data", PyDict [("Aggregated", PyBool false)])]);
    [reflexivity|reflexivity|reflexivity|reflexivity|].
  right. exists [("Aggregated", PyBool false)]. split; reflexivity.
Defined.

(** X9. The good case of [_single_symbol_price_hist]: for a status that
    is not 4xx or 5xx and a body that reports success, the helper
    returns the frame pandas builds from [body["Data"]["Data"]] with its
    [time] column converted, after exactly one request; the body's
    ["Message"] is not looked at. *)
Theorem single_fetch_returns_records
    (env : Env) (limit : Z) (exchange : option string) (unit : string)
    (sym : CryptoSymbol) (log : Log)
    (endpoint : string) (status : Z) (body inner : Dict.t pyobj)
    (records : pyobj) (df df' : DataFrame) :
  url_of_unit unit = Some endpoint ->
  requests_get env (mkRequest endpoint (request_params sym limit exchange))
  = Response status (Some (PyDict body)) ->
  ((400 <=? status)%Z && (status <? 600)%Z)%bool = false ->
  Dict.get "Response" body = Some (PyStr "Success") ->
  Dict.get "Data" body = Some (PyDict inner) ->
  Dict.get "Data" inner = Some records ->
  pd_DataFrame env records = inr df ->
  convert_time env df = inr df' ->
  _single_symbol_price_hist env limit exchange unit sym log
  = (inr df', log ++ [mkRequest endpoint (request_params sym limit exchange)]).
Proof.
  intros Hu Hget Hst Hresp Hdata Hinner Hdf Hconv.
  unfold _single_symbol_price_hist. rewrite Hu, bind_http, Hget, Hst.
  rewrite bind_lift. cbn [py_get]. rewrite Hresp. cbn [is_not_success].
  change (negb ("Success" =? "Success")%string) with false. cbv iota.
  rewrite bind_lift. cbn [py_getitem]. rewrite Hdata.
  rewrite bind_lift. cbn [py_getitem]. rewrite Hinner.
  rewrite bind_lift, Hdf, Hconv. reflexivity.
Qed.

Lemma single_fetch_returns_records_witness :
  exists df',
    _single_symbol_price_hist Sample.env 2000 None "day" Sample.btc_usd []
    = (inr df',
       [] ++ [mkRequest "https://min-api.cryptocompare.com/data/v2/histoday"
                (request_params Sample.btc_usd 2000 None)]).
Proof.
  eexists.
  eapply (@single_fetch_returns_records Sample.env 2000 None "day"
            Sample.btc_usd [] _ 200
            [("Response", PyStr "Success"); ("Message", PyStr "");
             ("Data", PyDict [("Data", PyList [Sample.candle 1 10;
                                               Sample.candle 2 11])])]
            [("Data", PyList [Sample.candle 1 10; Sample.candle 2 11])]
            (PyList [Sample.candle 1 10; Sample.candle 2 11]));
    reflexivity.
Defined.

(** ** Collections *)

Lemma merge_loop_log (env : Env) (data : Dict.t DataFrame)
    (rest : list CryptoSymbol) :
  forall acc log, snd (for_each (merge_body env data) rest acc log) = log.
Proof.
  induction rest as [|a rest' IH]; intros acc log; [reflexivity|].
  cbn [for_each]. unfold bind at 1, merge_body at 1. rewrite bind_lift.
  destruct (Dict.getitem (to_string a) data) as [e|right]; [reflexivity|].
  destruct (Pandas.merge_outer (pd_join_order env) acc right) as [e|df];
    [reflexivity|].
  cbn [lift ret]. apply IH.
Qed.

Lemma loop_outcome
    (env : Env) (limit : Z) (exchange : option string) (unit index : string)
    (syms : list CryptoSymbol) :
  (forall s, In s syms ->
     exists df, table_of env limit exchange unit index s = inr df)
  \/ (exists pre bad post e,
        syms = pre ++ bad :: post
        /\ (forall p, In p pre ->
              exists df, table_of env limit exchange unit index p = inr df)
        /\ table_of env limit exchange unit index bad = inl e).
Proof.
  induction syms as [|a rest IH].
  - left. intros s [].
  - destruct (table_of env limit exchange unit index a) as [e|df] eqn:Ea.
    + right. exists [], a, rest, e. repeat split; [|assumption]. intros p [].
    + destruct IH as [Hall|(pre & bad & post & e & -> & Hpre & Hbad)].
      * left. intros s [<-|Hs]; [now exists df|now apply Hall].
      * right. exists (a :: pre), bad, post, e. repeat split; [|assumption].
        intros p [<-|Hp]; [now exists df|now apply Hpre].
Qed.

Lemma issued_at_most_one (limit : Z) (exchange : option string) (unit : string)
    (syms : list CryptoSymbol) :
  List.length (flat_map (issued limit exchange unit) syms) <= List.length syms.
Proof.
  induction syms as [|a rest IH]; simpl; [lia|]. rewrite length_app.
  unfold issued at 1. destruct (request_of limit exchange unit a); simpl; lia.
Qed.

(** X10. Whatever happens, a fetch of a collection only ever appends to
    the request log the requests of the first [k] symbols, one each and
    in input order, for some [k]: it never asks twice for a symbol,
    never skips one, and merging issues no request. *)
Theorem requests_follow_symbols
    (env : Env) (limit : Z) (exchange : option string) (unit : string)
    (merge : bool) (index : string) (syms : list CryptoSymbol) (log : Log) :
  exists k,
    k <= List.length syms
    /\ snd (symbol_price_hist env limit exchange unit merge index (Many syms) log)
       = log ++ flat_map (issued limit exchange unit) (firstn k syms)
    /\ List.length
         (snd (symbol_price_hist env limit exchange unit merge index
                 (Many syms) log))
       <= List.length log + List.length syms.
Proof.
  assert (Hk : exists k,
             k <= List.length syms
             /\ snd (symbol_price_hist env limit exchange unit merge index
                       (Many syms) log)
                = log ++ flat_map (issued limit exchange unit) (firstn k syms)).
  { destruct (loop_outcome env limit exchange unit index syms)
      as [Hall|(pre & bad & post & e & -> & Hpre & Hbad)].
    - exists (List.length syms). split; [lia|]. rewrite firstn_all.
      unfold symbol_price_hist, bind at 1.
      rewrite (@loop_all_ok env limit exchange unit merge index
                 (fun s => match table_of env limit exchange unit index s with
                           | inr df => df
                           | inl _ => mkDataFrame None [] []
                           end) syms)
        by (intros s Hs; destruct (Hall s Hs) as [df ->]; reflexivity).
      destruct merge; [|reflexivity].
      rewrite bind_lift. destruct (list_getitem0 syms); [reflexivity|].
      rewrite bind_lift. destruct (Dict.getitem _ _); [reflexivity|].
      unfold bind.
      match goal with
      | |- context [for_each (merge_body ?v ?d) ?r ?a ?l] =>
          pose proof (merge_loop_log v d r a l) as Hlog;
          destruct (for_each (merge_body v d) r a l) as [[e|df] l']
      end; simpl in *; now subst.
    - exists (S (List.length pre)). split; [rewrite length_app; simpl; lia|].
      unfold symbol_price_hist, bind.
      rewrite (@loop_first_failure env limit exchange unit merge index
                 (fun s => match table_of env limit exchange unit index s with
                           | inr df => df
                           | inl _ => mkDataFrame None [] []
                           end) pre post bad e);
        [|intros s Hs; destruct (Hpre s Hs) as [df ->]; reflexivity|assumption].
      simpl snd.
      replace (firstn (S (List.length pre)) (pre ++ bad :: post))
        with (pre ++ [bad]).
      + rewrite flat_map_app. simpl. now rewrite app_nil_r.
      + rewrite firstn_app, firstn_all2 by lia.
        replace (S (List.length pre) - List.length pre) with 1 by lia.
        reflexivity. }
  destruct Hk as (k & Hle & Hlog). exists k. split; [exact Hle|].
  split; [exact Hlog|]. rewrite Hlog, length_app.
  pose proof (issued_at_most_one limit exchange unit (firstn k syms)) as H1.
  pose proof (firstn_le_length k syms). lia.
Qed.

(** X11. An empty collection with [merge=True] raises
    [IndexError('list index out of range')] at [symbol[0]], whatever the
    unit, and issues no request. *)
Theorem empty_collection_merged
    (env : Env) (limit : Z) (exchange : option string) (unit index : string)
    (log : Log) :
  symbol_price_hist env limit exchange unit true index (Many []) log
  = (inl (IndexError "list index out of range"), log).
Proof. reflexivity. Qed.

(** X12. A list of one symbol is not the symbol: with [merge=True] the
    result is the symbol's table with every column prefixed as by
    [add_prefix_to_df], where passing the symbol itself gives the table
    unprefixed. *)
Theorem one_symbol_list_merged
    (env : Env) (limit : Z) (exchange : option string) (unit index : string)
    (sym : CryptoSymbol) (t : DataFrame) (log : Log) :
  fst (symbol_price_hist env limit exchange unit true index (One sym) log)
  = inr (Frame t) ->
  symbol_price_hist env limit exchange unit true index (Many [sym]) log
  = (inr (Frame (add_prefix_to_df t (to_string sym))),
     log ++ issued limit exchange unit sym).
Proof.
  intros Hone. apply table_of_fetch_one in Hone.
  unfold symbol_price_hist, bind at 1.
  rewrite (@loop_all_ok env limit exchange unit true index (fun _ => t) [sym])
    by (intros s [<-|[]]; exact Hone).
  rewrite bind_lift. cbn [list_getitem0]. rewrite bind_lift.
  unfold filled. cbn [fold_left Dict.set]. unfold Dict.getitem.
  cbn [Dict.get]. rewrite String.eqb_refl. cbn [flat_map].
  rewrite app_nil_r. reflexivity.
Qed.

Lemma one_symbol_list_merged_witness :
  symbol_price_hist Sample.env 2000 None "day" true "time"
    (Many [Sample.btc_usd]) []
  = (inr (Frame (add_prefix_to_df (Sample.table Sample.btc_usd)
                                  (to_string Sample.btc_usd))),
     [] ++ issued 2000 None "day" Sample.btc_usd).
Proof.
  apply (@one_symbol_list_merged Sample.env 2000 None "day" "time"
           Sample.btc_usd (Sample.table Sample.btc_usd) []).
  reflexivity.
Defined.

(** ** The index column *)

Lemma position_None (name : string) (cols : list string) :
  ~ In name cols -> Pandas.position name cols = None.
Proof.
  induction cols as [|c rest IH]; intros Hn; simpl; [reflexivity|].
  destruct (String.eqb_spec c name) as [->|_]; [elim Hn; now left|].
  rewrite IH; [reflexivity|]. intros H. apply Hn. now right.
Qed.

Lemma position_Some (name : string) (cols : list string) :
  In name cols ->
  exists i, Pandas.position name cols = Some i /\ nth_error cols i = Some name.
Proof.
  induction cols as [|c rest IH]; intros Hin; [contradiction|]. simpl.
  destruct (String.eqb_spec c name) as [->|Hne]; [now exists 0|].
  destruct Hin as [Heq|Hin]; [contradiction|].
  destruct (IH Hin) as (i & -> & Hi). now exists (S i).
Qed.

Lemma remove_nth_length {A} (i : nat) (l : list A) (x : A) :
  nth_error l i = Some x ->
  S (List.length (Pandas.remove_nth i l)) = List.length l.
Proof.
  revert i. induction l as [|a rest IH]; intros [|j] H; simpl in *;
    try discriminate; [reflexivity|]. now rewrite (IH j H).
Qed.

Lemma In_remove_nth {A} (i : nat) (l : list A) (x : A) :
  In x (Pandas.remove_nth i l) -> In x l.
Proof.
  revert i. induction l as [|a rest IH]; intros [|j] H; simpl in *; auto.
  destruct H as [->|H]; [now left|right; now apply (IH j)].
Qed.

Lemma remove_nth_NoDup {A} (i : nat) (l : list A) (x : A) :
  NoDup l -> nth_error l i = Some x -> ~ In x (Pandas.remove_nth i l).
Proof.
  revert i. induction l as [|a rest IH]; intros [|j] Hnd H; simpl in *;
    try discriminate; inversion Hnd as [|? ? Hfresh Hrest]; subst.
  - now inversion H; subst.
  - intros [->|Hin].
    + apply Hfresh. eapply nth_error_In. exact H.
    + now apply (IH j Hrest H).
Qed.

Lemma table_of_index
    (env : Env) (limit : Z) (exchange : option string) (unit index : string)
    (sym : CryptoSymbol) (t : DataFrame) :
  table_of env limit exchange unit "" sym = inr t ->
  index <> "" ->
  table_of env limit exchange unit index sym
  = Pandas.set_index (py_str env) index t.
Proof.
  unfold table_of. intros H Hne.
  destruct (fst (_single_symbol_price_hist env limit exchange unit sym []))
    as [e|df]; [discriminate|].
  destruct (convert_time env df) as [e|df']; [discriminate|].
  simpl in H. inversion H; subst.
  apply String.eqb_neq in Hne. now rewrite Hne.
Qed.

(** X13. An [index] that is not a column of the fetched table raises
    pandas' [KeyError], whose message names the list of missing names
    as Python prints it, only after the request has been made, for one
    symbol and for a collection at its first symbol. *)
Theorem unknown_index_raises
    (env : Env) (limit : Z) (exchange : option string) (unit index : string)
    (sym : CryptoSymbol) (t : DataFrame) (log : Log) :
  fst (symbol_price_hist env limit exchange unit false "" (One sym) log)
  = inr (Frame t) ->
  index <> "" ->
  ~ In index (columns t) ->
  let e := KeyError ("None of " +++ py_str env (PyList [PyStr index])
                     +++ " are in the columns") in
  (forall merge,
      symbol_price_hist env limit exchange unit merge index (One sym) log
      = (inl e, log ++ issued limit exchange unit sym))
  /\ (forall merge others,
      symbol_price_hist env limit exchange unit merge index
        (Many (sym :: others)) log
      = (inl e, log ++ issued limit exchange unit sym)).
Proof.
  intros Hone Hne Hout e. apply table_of_fetch_one in Hone.
  assert (Ht : table_of env limit exchange unit index sym = inl e).
  { rewrite (table_of_index _ _ _ _ _ Hone Hne). unfold Pandas.set_index.
    now rewrite position_None. }
  split.
  - intros merge. rewrite fetch_one_run. now rewrite Ht.
  - intros merge others. unfold symbol_price_hist, bind.
    rewrite (@loop_first_failure env limit exchange unit merge index
               (fun _ => t) [] others sym e); [|intros s []|exact Ht].
    reflexivity.
Qed.

Lemma unknown_index_raises_witness :
  let e := KeyError "None of ['volume'] are in the columns" in
  (forall merge,
      symbol_price_hist Sample.env 2000 None "day" merge "volume"
        (One Sample.btc_usd) []
      = (inl e, [] ++ issued 2000 None "day" Sample.btc_usd))
  /\ (forall merge others,
      symbol_price_hist Sample.env 2000 None "day" merge "volume"
        (Many (Sample.btc_usd :: others)) []
      = (inl e, [] ++ issued 2000 None "day" Sample.btc_usd)).
Proof.
  eapply (@unknown_index_raises Sample.env 2000 None "day" "volume"
            Sample.btc_usd _ []).
  - reflexivity.
  - discriminate.
  - simpl. intuition discriminate.
Defined.

(** X14. A non-empty [index] that names a column of the fetched table
    turns that column into the index: the result has one column fewer,
    the same number of rows and no new column, and when the column
    labels were distinct the index label is no longer among them. *)
Theorem index_column_leaves_the_columns
    (env : Env) (limit : Z) (exchange : option string) (unit index : string)
    (merge : bool) (sym : CryptoSymbol) (t : DataFrame) (log : Log) :
  fst (symbol_price_hist env limit exchange unit false "" (One sym) log)
  = inr (Frame t) ->
  index <> "" ->
  In index (columns t) ->
  exists t',
    symbol_price_hist env limit exchange unit merge index (One sym) log
    = (inr (Frame t'), log ++ issued limit exchange unit sym)
    /\ index_name t' = Some index
    /\ S (List.length (columns t')) = List.length (columns t)
    /\ List.length (rows t') = List.length (rows t)
    /\ (forall c, In c (columns t') -> In c (columns t))
    /\ (NoDup (columns t) -> ~ In index (columns t')).
Proof.
  intros Hone Hne Hin. apply table_of_fetch_one in Hone.
  destruct (position_Some _ _ Hin) as (i & Hpos & Hnth).
  pose proof (table_of_index _ _ _ _ _ Hone Hne) as Ht.
  unfold Pandas.set_index in Ht. rewrite Hpos in Ht.
  eexists. split; [rewrite fetch_one_run, Ht; reflexivity|]. simpl.
  split; [reflexivity|]. split; [now apply remove_nth_length with index|].
  split; [apply length_map|]. split.
  - intros c. apply In_remove_nth.
  - intros Hnd. now apply remove_nth_NoDup.
Qed.

Lemma index_column_leaves_the_columns_witness :
  exists t',
    symbol_price_hist Sample.env 2000 None "day" false "close"
      (One Sample.btc_usd) []
    = (inr (Frame t'), [] ++ issued 2000 None "day" Sample.btc_usd)
    /\ index_name t' = Some "close"
    /\ S (List.length (columns t')) = 3
    /\ List.length (rows t') = 2
    /\ (forall c, In c (columns t') -> In c ["time"; "close"; "open"])
    /\ (NoDup ["time"; "close"; "open"] -> ~ In "close" (columns t')).
Proof.
  eapply (@index_column_leaves_the_columns Sample.env 2000 None "day" "close"
            false Sample.btc_usd
            (mkDataFrame None ["time"; "close"; "open"]
               [(Num 0, [Timestamp 1; Num 10; Num 9]);
                (Num 1, [Timestamp 2; Num 11; Num 10])]) []).
  - reflexivity.
  - discriminate.
  - right. left. reflexivity.
Defined.

(** ** utils.py *)

Lemma append_injective (p a b : string) : p +++ a = p +++ b -> a = b.
Proof.
  induction p as [|c rest IH]; simpl; intros H; [exact H|].
  inversion H. now apply IH.
Qed.

Lemma NoDup_map_of_injective {A B} (f : A -> B) (l : list A) :
  (forall a b, f a = f b -> a = b) -> NoDup l -> NoDup (map f l).
Proof.
  intros Hinj Hnd. induction Hnd as [|x rest Hfresh Hrest IH]; simpl;
    constructor; [|exact IH].
  intros Hin. apply in_map_iff in Hin. destruct Hin as (y & Heq & Hy).
  apply Hinj in Heq. now subst.
Qed.

(** X15. [add_prefix_to_df] keeps the rows, the index and the number
    of columns, puts [prefix_] before every label, and keeps distinct
    labels distinct. *)
Theorem add_prefix_to_df_keeps_shape (df : DataFrame) (prefix : string) :
  NoDup (columns df) ->
  NoDup (columns (add_prefix_to_df df prefix))
  /\ List.length (columns (add_prefix_to_df df prefix))
     = List.length (columns df)
  /\ (forall c, In c (columns (add_prefix_to_df df prefix))
                <-> exists old, In old (columns df)
                                /\ c = prefix +++ "_" +++ old)
  /\ rows (add_prefix_to_df df prefix) = rows df
  /\ index_name (add_prefix_to_df df prefix) = index_name df.
Proof.
  intros Hnd. unfold add_prefix_to_df, Pandas.rename. simpl.
  split; [|split; [apply length_map|split; [|split; reflexivity]]].
  - apply NoDup_map_of_injective; [|exact Hnd].
    intros a b H. apply append_injective in H.
    now apply (append_injective "_") in H.
  - intros c. rewrite in_map_iff. split.
    + intros (old & <- & Hold). now exists old.
    + intros (old & Hold & ->). now exists old.
Qed.

Lemma add_prefix_to_df_keeps_shape_witness :
  let df := Sample.table Sample.btc_usd in
  NoDup (columns (add_prefix_to_df df "BTC/USD"))
  /\ List.length (columns (add_prefix_to_df df "BTC/USD"))
     = List.length (columns df)
  /\ (forall c, In c (columns (add_prefix_to_df df "BTC/USD"))
                <-> exists old, In old (columns df)
                                /\ c = "BTC/USD" +++ "_" +++ old)
  /\ rows (add_prefix_to_df df "BTC/USD") = rows df
  /\ index_name (add_prefix_to_df df "BTC/USD") = index_name df.
Proof.
  apply (@add_prefix_to_df_keeps_shape (Sample.table Sample.btc_usd) "BTC/USD").
  vm_compute. distinct_strings.
Defined.

(** X16. [defn] picks the first value that is not [None]: chaining it
    is associative, and the result is [None] only when both the value
    and the default are. *)
Theorem defn_first_not_none {A} (a b c : option A) :
  defn (defn a b) c = defn a (defn b c)
  /\ (defn a b = None <-> a = None /\ b = None).
Proof.
  split; [now destruct a|].
  destruct a, b; simpl; split; try intros [? ?]; try discriminate; auto.
Qed.

(** ** The self-test *)

Section SelfTest.

Variable env : Env.
Variable t0 t1 t2 : DataFrame.

Let btc := Sample.btc_usd.
Let eth := Sample.eth_btc.
Let width (t : DataFrame) : Z := Z.of_nat (List.length (columns t)).

Hypothesis minute_btc : table_of env 2000 None "minute" "time" btc = inr t0.
Hypothesis day_btc : table_of env 2000 None "day" "time" btc = inr t1.
Hypothesis day_eth : table_of env 2000 None "day" "time" eth = inr t2.

Lemma prefixed_tables_disjoint (c : string) :
  In c (columns (stored true btc t1)) -> ~ In c (columns (stored true eth t2)).
Proof.
  unfold stored, Pandas.rename. simpl. intros H1 H2.
  apply in_map_iff in H1. destruct H1 as (x & <- & _).
  apply in_map_iff in H2. destruct H2 as (y & Heq & _).
  discriminate Heq.
Qed.

Lemma utest_run (columns_per_df : Z) (log : Log) :
  _utest_symbol_price_hist env columns_per_df log
  = if (width t0 =? columns_per_df)%Z
    then (inr (width t1 + width t2 =? columns_per_df * 2)%Z,
          log ++ issued 2000 None "minute" btc
              ++ issued 2000 None "day" btc ++ issued 2000 None "day" eth)
    else (inr false, log ++ issued 2000 None "minute" btc).
Proof.
  set (tbl := fun s : CryptoSymbol =>
                if String.eqb (symbol s) "BTC" then t1 else t2).
  unfold _utest_symbol_price_hist.
  change (from_string "BTC/USD") with (@inr Exn _ btc).
  change (from_string "ETH/BTC") with (@inr Exn _ eth).
  rewrite bind_lift. unfold bind at 1. rewrite fetch_one_run, minute_btc.
  rewrite bind_lift. cbn [shape1]. fold (width t0).
  destruct (width t0 =? columns_per_df)%Z; [|reflexivity]. cbn [negb].
  rewrite !bind_lift. unfold bind at 1. unfold symbol_price_hist, bind at 1.
  assert (Hinj : forall a b, In a [btc; eth] -> In b [btc; eth] ->
                             to_string a = to_string b -> a = b)
    by (intros a b [<-|[<-|[]]] [<-|[<-|[]]] H; try reflexivity;
        discriminate H).
  rewrite (@loop_all_ok env 2000 None "day" true "time" tbl [btc; eth])
    by (intros s [<-|[<-|[]]]; assumption).
  rewrite bind_lift. cbn [list_getitem0]. rewrite bind_lift.
  unfold Dict.getitem at 1.
  rewrite (@get_filled true tbl [btc; eth] Hinj btc []) by now left.
  unfold bind at 1. cbn [tl for_each]. unfold bind at 1, merge_body at 1.
  rewrite bind_lift. unfold Dict.getitem at 1.
  rewrite (@get_filled true tbl [btc; eth] Hinj eth []) by (right; now left).
  change (tbl btc) with t1. change (tbl eth) with t2.
  rewrite (PandasFacts.merge_outer_disjoint _ _ _ prefixed_tables_disjoint).
  cbn [lift ret]. rewrite bind_lift. cbn [shape1 columns].
  unfold stored, Pandas.rename. cbn [columns].
  rewrite length_app, !length_map, Nat2Z.inj_add. fold (width t1) (width t2).
  change (Z.of_nat (List.length [btc; eth])) with 2%Z.
  cbn [flat_map]. rewrite app_nil_r, <- !app_assoc.
  now destruct (width t1 + width t2 =? columns_per_df * 2)%Z.
Qed.

End SelfTest.

Lemma append_empty (s : string) : s +++ "" = s.
Proof. induction s as [|c rest IH]; simpl; [reflexivity|]. now rewrite IH. Qed.

(** X17. When the three fetches of the self-test succeed,
    [_utest_symbol_price_hist] never raises: it answers [False] after
    the first request if the single table has not [columns_per_df]
    columns, and otherwise makes the two further requests and answers
    whether the merged table has twice [columns_per_df] columns, which
    is the sum of the two tables' column counts. *)
Theorem self_test_verdict
    (env : Env) (t0 t1 t2 : DataFrame) (columns_per_df : Z) (log : Log) :
  fst (symbol_price_hist env 2000 None "minute" false "time"
         (One Sample.btc_usd) log) = inr (Frame t0) ->
  fst (symbol_price_hist env 2000 None "day" false "time"
         (One Sample.btc_usd) log) = inr (Frame t1) ->
  fst (symbol_price_hist env 2000 None "day" false "time"
         (One Sample.eth_btc) log) = inr (Frame t2) ->
  let width := fun t => Z.of_nat (List.length (columns t)) in
  _utest_symbol_price_hist env columns_per_df log
  = if (width t0 =? columns_per_df)%Z
    then (inr (width t1 + width t2 =? columns_per_df * 2)%Z,
          log ++ issued 2000 None "minute" Sample.btc_usd
              ++ issued 2000 None "day" Sample.btc_usd
              ++ issued 2000 None "day" Sample.eth_btc)
    else (inr false, log ++ issued 2000 None "minute" Sample.btc_usd).
Proof.
  intros H0 H1 H2 width.
  apply table_of_fetch_one in H0, H1, H2.
  exact (@utest_run env t0 t1 t2 H0 H1 H2 columns_per_df log).
Qed.

Lemma self_test_verdict_witness :
  _utest_symbol_price_hist Sample.env 2 []
  = (inr true,
     [] ++ issued 2000 None "minute" Sample.btc_usd
        ++ issued 2000 None "day" Sample.btc_usd
        ++ issued 2000 None "day" Sample.eth_btc).
Proof.
  apply (@self_test_verdict Sample.env (Sample.table Sample.btc_usd)
           (Sample.table Sample.btc_usd) (Sample.table Sample.eth_btc) 2 []);
    reflexivity.
Defined.

(** X18. The module's main program, when the three fetches succeed,
    prints [Testing '_utest_symbol_price_hist' ...'] and then either
    [PASSED!] and a newline, when the single table has 8 columns and the
    two merged tables 16 together, or nothing more and raises
    [TestError] naming the test. *)
Theorem main_outcome
    (env : Env) (t0 t1 t2 : DataFrame) (shown : string) (log : Log)
    (stdout : string) :
  fst (symbol_price_hist env 2000 None "minute" false "time"
         (One Sample.btc_usd) log) = inr (Frame t0) ->
  fst (symbol_price_hist env 2000 None "day" false "time"
         (One Sample.btc_usd) log) = inr (Frame t1) ->
  fst (symbol_price_hist env 2000 None "day" false "time"
         (One Sample.eth_btc) log) = inr (Frame t2) ->
  let width := fun t => Z.of_nat (List.length (columns t)) in
  let banner := stdout +++ "Testing '_utest_symbol_price_hist' ...'" in
  let failed :=
    TestError ("Test failed: " +++ shown +++ ": _utest_symbol_price_hist") in
  let first := log ++ issued 2000 None "minute" Sample.btc_usd in
  let all := first ++ issued 2000 None "day" Sample.btc_usd
                   ++ issued 2000 None "day" Sample.eth_btc in
  main env shown log stdout
  = if (width t0 =? 8)%Z
    then if (width t1 + width t2 =? 16)%Z
         then (inr tt, all, banner +++ "PASSED!" +++ newline)
         else (inl failed, all, banner)
    else (inl failed, first, banner).
Proof.
  intros H0 H1 H2 width banner failed first all.
  apply table_of_fetch_one in H0, H1, H2.
  unfold main, test. cbn [call fn_name fn_repr _vprint].
  rewrite (@utest_run env t0 t1 t2 H0 H1 H2 8 log). fold (width t0) (width t1) (width t2).
  rewrite append_empty. fold banner.
  subst all first. rewrite <- !app_assoc.
  destruct (width t0 =? 8)%Z; [|reflexivity].
  change (8 * 2)%Z with 16%Z.
  destruct (width t1 + width t2 =? 16)%Z; reflexivity.
Qed.

Lemma main_outcome_witness :
  main Sample.env "<function>" [] ""
  = (inl (TestError ("Test failed: " +++ "<function>"
                     +++ ": _utest_symbol_price_hist")),
     [] ++ issued 2000 None "minute" Sample.btc_usd,
     "" +++ "Testing '_utest_symbol_price_hist' ...'").
Proof.
  apply (@main_outcome Sample.env (Sample.table Sample.btc_usd)
           (Sample.table Sample.btc_usd) (Sample.table Sample.eth_btc)
           "<function>" [] ""); reflexivity.
Defined.
